(** * zlog: a logging facade over zerolog for Hertz's hlog contract

    A shallow embedding of the Go package [zlog] (the facade [ZLogger], the
    rotation wrapper [RotatingLogger], the adapter [HlogAdapter]) and the
    properties its specification states about it.

    Go code is embedded as follows.
    - [hertzlog.Level] is a Go [int] and [zerolog.Level] a Go [int8]: both are
      [Z], with the constants of the two libraries.
    - Methods with side effects (writing a record, annotating a span, exiting
      the process) are computations in the monad [Go] over an explicit
      [World]; a computation ends normally, by [os.Exit], or by a panic.
    - A method that assigns to the fields of its receiver ([SetLevel],
      [SetOutput]) is a function to the updated struct; where the struct is
      shared through a pointer (the adapter holds a [*ZLogger]) the pointer
      is a location in the heap of the [World] and the update is stored back.
    - [map[string]interface{}] is a [gmap string any]; the nil map is [None].

    The package is glue between four libraries that are not part of the
    repository: hertz's hlog (the level constants), zerolog (the engine),
    lumberjack (the rotating file) and OpenTelemetry (spans).  The parts of
    them the package calls are embedded from their documented behaviour, each
    under the name it has in Go. *)

From Stdlib Require Import ZArith Ascii String.
From Stdlib Require Strings.Byte.
From stdpp Require Import base option list gmap strings pretty sorting.

Open Scope Z_scope.

(** ** hertz [hlog]: the seven-level scheme

    [type Level int], declared with [iota] in this order. *)

Definition Level := Z.

Definition LevelTrace : Level := 0.
Definition LevelDebug : Level := 1.
Definition LevelInfo : Level := 2.
Definition LevelNotice : Level := 3.
Definition LevelWarn : Level := 4.
Definition LevelError : Level := 5.
Definition LevelFatal : Level := 6.

(** The seven severities as an enumeration: one for each method of the
    [Logger], [FormatLogger] and [CtxLogger] interfaces. *)
Inductive Severity : Type :=
| Trace | Debug | Info | Notice | Warn | Error | Fatal.

Definition hlevel (s : Severity) : Level :=
  match s with
  | Trace => LevelTrace
  | Debug => LevelDebug
  | Info => LevelInfo
  | Notice => LevelNotice
  | Warn => LevelWarn
  | Error => LevelError
  | Fatal => LevelFatal
  end.

Definition all_severities : list Severity :=
  [Trace; Debug; Info; Notice; Warn; Error; Fatal].

(** ** zerolog: the levels of the engine

    [type Level int8]; [DebugLevel] is 0 and [TraceLevel] is -1. *)

Definition zLevel := Z.

Definition TraceLevel : zLevel := -1.
Definition DebugLevel : zLevel := 0.
Definition InfoLevel : zLevel := 1.
Definition WarnLevel : zLevel := 2.
Definition ErrorLevel : zLevel := 3.
Definition FatalLevel : zLevel := 4.
Definition PanicLevel : zLevel := 5.
Definition NoLevel : zLevel := 6.
Definition Disabled : zLevel := 7.

(** The levels the facade ever asks of the engine. *)
Definition engine_levels : list zLevel :=
  [TraceLevel; DebugLevel; InfoLevel; WarnLevel; ErrorLevel; FatalLevel].

(** ** The level mapper *)

(** Helper function to convert hertz log level to zerolog level.  The Go
    [switch] compares with each constant in turn and has a [default]. *)
Definition toZerologLevel (level : Level) : zLevel :=
  if decide (level = LevelTrace) then TraceLevel
  else if decide (level = LevelDebug) then DebugLevel
  else if decide (level = LevelInfo) then InfoLevel
  else if decide (level = LevelNotice ∨ level = LevelWarn) then WarnLevel
  else if decide (level = LevelError) then ErrorLevel
  else if decide (level = LevelFatal) then FatalLevel
  else InfoLevel.

(** Helper function to convert zerolog level to hertz log level. *)
Definition fromZerologLevel (level : zLevel) : Level :=
  if decide (level = TraceLevel) then LevelTrace
  else if decide (level = DebugLevel) then LevelDebug
  else if decide (level = InfoLevel) then LevelInfo
  else if decide (level = WarnLevel) then LevelNotice
  else if decide (level = ErrorLevel) then LevelError
  else if decide (level = FatalLevel) then LevelFatal
  else LevelInfo.

(** ** Values and formatting

    [interface{}] values that reach the logger.  [nil] is not a constructor:
    where Go tests a value against [nil] the model uses [option]. *)
Inductive any : Type :=
| VString (s : string)
| VInt (n : Z)
| VBool (b : bool).

(** Package [fmt].  [Sprint] and [Sprintf] are the formatting functions of
    the Go standard library; the facade hands its arguments to them unchanged
    and everything below is stated for any pair of such functions. *)
Class Fmt : Type := {
  Sprint : list any → string;
  Sprintf : string → list any → string
}.

(** A formatter for running the model on examples: [Sprintf] returns the
    format string and [Sprint] joins the string arguments. *)
Definition plain_fmt : Fmt := {|
  Sprint := λ v, foldr (λ a s, match a with VString x => x +:+ s | _ => s end) "" v;
  Sprintf := λ format _, format
|}.

(** [fmt.Sprintf("%02x", uint8(b))]: two hexadecimal digits, lower case. *)
Definition hex_digit (n : N) : ascii :=
  match n with
  | 0 => "0" | 1 => "1" | 2 => "2" | 3 => "3" | 4 => "4" | 5 => "5"
  | 6 => "6" | 7 => "7" | 8 => "8" | 9 => "9" | 10 => "a" | 11 => "b"
  | 12 => "c" | 13 => "d" | 14 => "e" | _ => "f"
  end%N%char.

Definition Sprintf_02x (b : Byte.byte) : string :=
  String (hex_digit (Byte.to_N b `div` 16)%N)
    (String (hex_digit (Byte.to_N b `mod` 16)%N) EmptyString).


(** ** Destinations

    An [io.Writer] handed to the logger.  [Buffer n] stands for any writer
    other than the two the package itself creates; [n] is its identity. *)
Module lumberjack.
  (** [lumberjack.Logger]: a file that rotates itself. *)
Record Logger : Type := {
    Filename : string;
    MaxSize : Z;
    MaxBackups : Z;
    MaxAge : Z;
    Compress : bool;
    LocalTime : bool
  }.
End lumberjack.

Inductive Writer : Type :=
| Stdout
| Buffer (id : nat)
| Lumberjack (lj : lumberjack.Logger).

(** ** zerolog: loggers and records *)

(** The [TimeFormat] layouts of package [time] the code uses. *)
Inductive TimeLayout : Type := RFC3339 | DateTime.

(** What a [zerolog.Logger] writes to: the destination itself (one JSON
    object per record) or a [zerolog.ConsoleWriter] around it.  The
    [FormatLevel] function of the console writer is the same closure at each
    of its construction sites (upper case, padded to six columns) and is not
    a field here. *)
Inductive LevelWriter : Type :=
| JSONWriter (out : Writer)
| ConsoleWriter (Out : Writer) (TimeFormat : TimeLayout).

Definition lw_out (lw : LevelWriter) : Writer :=
  match lw with JSONWriter out => out | ConsoleWriter out _ => out end.

Definition lw_console (lw : LevelWriter) : bool :=
  match lw with JSONWriter _ => false | ConsoleWriter _ _ => true end.

(** Fields a logger adds to each of its records ([With()...Logger()]). *)
Inductive ContextField : Type :=
| Timestamp
| CallerWithSkipFrameCount (skip : Z)
| StrField (key value : string).

Record zerolog_Logger : Type := {
  zw : LevelWriter;
  zlevel : zLevel;
  zcontext : list ContextField
}.

(** One record as it reaches the destination. *)
Record Line : Type := {
  ln_writer : LevelWriter;
  ln_level : zLevel;
  ln_context : list ContextField;
  ln_fields : list (string * string);
  ln_message : string
}.

(** [zerolog.New(w)]: no context, every level enabled. *)
Definition zerolog_New (w : LevelWriter) : zerolog_Logger :=
  {| zw := w; zlevel := TraceLevel; zcontext := [] |}.

(** [l.Level(lvl)] *)
Definition Logger_Level (l : zerolog_Logger) (lvl : zLevel) : zerolog_Logger :=
  {| zw := zw l; zlevel := lvl; zcontext := zcontext l |}.

(** [l.With().Timestamp().CallerWithSkipFrameCount(n).Logger()] *)
Definition With_Timestamp_Caller (l : zerolog_Logger) (n : Z) : zerolog_Logger :=
  {| zw := zw l; zlevel := zlevel l;
     zcontext := zcontext l ++ [Timestamp; CallerWithSkipFrameCount n] |}.

(** [zerolog.GlobalLevel()].  The package initialises it to [TraceLevel] and
    nothing in this repository calls [SetGlobalLevel]. *)
Definition GlobalLevel : zLevel := TraceLevel.

(** [l.should(lvl)]: the filter applied to each event.  The loggers of this
    package always have a writer and never a sampler. *)
Definition should (l : zerolog_Logger) (lvl : zLevel) : bool :=
  negb (bool_decide (lvl < zlevel l ∨ lvl < GlobalLevel)).

(** ** OpenTelemetry: spans and contexts *)

(** [trace.SpanContext]: a 16-byte trace id, an 8-byte span id, the flags. *)
Record SpanContext : Type := {
  sc_traceID : list Byte.byte;
  sc_spanID : list Byte.byte;
  sc_traceFlags : Byte.byte
}.

(** [TraceID.IsValid], [SpanID.IsValid]: some byte is not zero. *)
Definition ID_IsValid (id : list Byte.byte) : bool :=
  existsb (λ b, negb (Byte.eqb b Byte.x00)) id.

(** [TraceID.String], [SpanID.String]: lower-case hexadecimal. *)
Definition ID_String (id : list Byte.byte) : string :=
  foldr (λ b s, Sprintf_02x b +:+ s) "" id.

(** [SpanContext.IsValid]: has a trace id and a span id. *)
Definition SpanContext_IsValid (sc : SpanContext) : bool :=
  ID_IsValid (sc_traceID sc) && ID_IsValid (sc_spanID sc).

(** A span handle: its identity and the span context it reports. *)
Record Span : Type := {
  span_ref : nat;
  span_ctx : SpanContext
}.

(** The span [SpanFromContext] returns when the context carries none. *)
Definition noopSpan : Span :=
  {| span_ref := 0%nat;
     span_ctx := {| sc_traceID := replicate 16 Byte.x00;
                    sc_spanID := replicate 8 Byte.x00;
                    sc_traceFlags := Byte.x00 |} |}.

(** [codes.Code] *)
Definition codes_Unset : Z := 0.
Definition codes_Error : Z := 1.
Definition codes_Ok : Z := 2.

(** The calls a span accepts from the logger. *)
Inductive SpanCall : Type :=
| AddEvent (name : string) (attributes : list (string * string))
| SetStatus (code : Z) (description : string).

(** A non-nil [context.Context]: the values under string keys and the
    current span, if one was stored. *)
Record Context : Type := {
  ctx_values : gmap string any;
  ctx_span : option Span
}.

(** [trace.SpanFromContext]: the no-op span for a nil context and for a
    context without a span. *)
Definition trace_SpanFromContext (ctx : option Context) : Span :=
  match ctx with
  | None => noopSpan
  | Some c => default noopSpan (ctx_span c)
  end.

(** ** The facade's data

    Struct fields carry the prefix of their struct ([zl_] for [ZLogger],
    [cfg_] for [config], [rl_] for [RotatingLogger], [h_] for [HlogAdapter]),
    since several structs share field names. *)

(** [trace.TracerProvider]; the logger stores it and never calls it. *)
Inductive TracerProvider : Type :=
| NoopTracerProvider
| Provider (id : nat).

(** FormatType defines the output format for the logger ([type FormatType int]). *)
Definition FormatType := Z.
Definition ConsoleFormat : FormatType := 0.
Definition JSONFormat : FormatType := 1.

(** ZLogger implements the FullLogger interface using zerolog. *)
Record ZLogger : Type := {
  zl_logger : zerolog_Logger;
  zl_level : Level;
  zl_tp : TracerProvider;
  zl_format : FormatType
}.

(** ** The world a call acts on *)

Record World : Type := {
  (** the records each destination accepted, oldest first *)
  written : list (Writer * Line);
  (** what the engine printed on standard error *)
  stderr : list string;
  (** the destinations that reject writes and rotation *)
  broken : Writer → bool;
  (** the calls made on spans, oldest first, by span *)
  span_calls : list (nat * SpanCall);
  (** the files rotated, oldest first *)
  rotations : list string;
  (** the [ZLogger] values behind pointers *)
  heap : gmap nat ZLogger
}.

Definition set_written (f : list (Writer * Line) → list (Writer * Line)) (w : World) : World :=
  {| written := f (written w); stderr := stderr w; broken := broken w;
     span_calls := span_calls w; rotations := rotations w; heap := heap w |}.

Definition set_stderr (f : list string → list string) (w : World) : World :=
  {| written := written w; stderr := f (stderr w); broken := broken w;
     span_calls := span_calls w; rotations := rotations w; heap := heap w |}.

Definition set_span_calls (f : list (nat * SpanCall) → list (nat * SpanCall)) (w : World) : World :=
  {| written := written w; stderr := stderr w; broken := broken w;
     span_calls := f (span_calls w); rotations := rotations w; heap := heap w |}.

Definition set_rotations (f : list string → list string) (w : World) : World :=
  {| written := written w; stderr := stderr w; broken := broken w;
     span_calls := span_calls w; rotations := f (rotations w); heap := heap w |}.

Definition set_heap (f : gmap nat ZLogger → gmap nat ZLogger) (w : World) : World :=
  {| written := written w; stderr := stderr w; broken := broken w;
     span_calls := span_calls w; rotations := rotations w; heap := f (heap w) |}.

(** A world where nothing happened yet and every destination works. *)
Definition empty_world : World :=
  {| written := []; stderr := []; broken := λ _, false;
     span_calls := []; rotations := []; heap := ∅ |}.

(** ** Computations

    A call returns to its caller, ends the process ([os.Exit]) or panics. *)
Inductive result (A : Type) : Type :=
| Ret (a : A) (w : World)
| Exit (code : Z) (w : World)
| Panic (w : World).
Arguments Ret {A} a w.
Arguments Exit {A} code w.
Arguments Panic {A} w.

Definition Go (A : Type) : Type := World → result A.

#[export] Instance Go_ret : MRet Go := λ A a w, Ret a w.

#[export] Instance Go_bind : MBind Go := λ A B f m w,
  match m w with
  | Ret a w' => f a w'
  | Exit code w' => Exit code w'
  | Panic w' => Panic w'
  end.

Definition os_Exit {A} (code : Z) : Go A := λ w, Exit code w.

Definition panic {A} : Go A := λ w, Panic w.

(** The world a computation leaves behind, however it ends. *)
Definition final {A} (r : result A) : World :=
  match r with Ret _ w => w | Exit _ w => w | Panic w => w end.

Definition returns {A} (r : result A) : bool :=
  match r with Ret _ _ => true | _ => false end.

(** The error value a call hands back to its caller; [None] is Go's [nil]. *)
Definition error := option string.

(** [w.Write(p)] on a destination: a broken one returns an error and keeps
    nothing. *)
Definition Writer_Write (out : Writer) (ln : Line) : Go error := λ w,
  if broken w out then Ret (Some "write failed") w
  else Ret None (set_written (λ l, l ++ [(out, ln)]) w).

Definition Fprintf_stderr (s : string) : Go () := λ w,
  Ret () (set_stderr (λ l, l ++ [s]) w).

(** ** zerolog: events *)

(** A [*zerolog.Event] that is not nil. *)
Record event : Type := {
  ev_w : LevelWriter;
  ev_level : zLevel;
  ev_context : list ContextField;
  ev_fields : list (string * string);
  (** the exit code of the [done] hook, for the events that have one *)
  ev_done : option Z
}.

(** [*zerolog.Event]; [None] is the nil event of a filtered level. *)
Definition Event := option event.

(** [l.newEvent(level, done)].  A filtered level gives the nil event, after
    running the [done] hook if there is one. *)
Definition newEvent (l : zerolog_Logger) (lvl : zLevel) (done : option Z) : Go Event :=
  if should l lvl then
    mret (Some {| ev_w := zw l; ev_level := lvl; ev_context := zcontext l;
                  ev_fields := []; ev_done := done |})
  else
    match done with
    | Some code => os_Exit code
    | None => mret None
    end.

Definition Logger_Trace (l : zerolog_Logger) : Go Event := newEvent l TraceLevel None.
Definition Logger_Debug (l : zerolog_Logger) : Go Event := newEvent l DebugLevel None.
Definition Logger_Info (l : zerolog_Logger) : Go Event := newEvent l InfoLevel None.
Definition Logger_Warn (l : zerolog_Logger) : Go Event := newEvent l WarnLevel None.
Definition Logger_Error (l : zerolog_Logger) : Go Event := newEvent l ErrorLevel None.

(** [l.Fatal()].  In zerolog's words: "Fatal starts a new message with fatal
    level.  The os.Exit(1) function is called by the Msg method, which
    terminates the program immediately."  The call to [os.Exit] is the [done]
    hook of the event (which also closes the writer, left out here). *)
Definition Logger_Fatal (l : zerolog_Logger) : Go Event := newEvent l FatalLevel (Some 1).

(** [e.Str(key, val)] *)
Definition Event_Str (e : Event) (key val : string) : Event :=
  (λ ev, {| ev_w := ev_w ev; ev_level := ev_level ev; ev_context := ev_context ev;
            ev_fields := ev_fields ev ++ [(key, val)]; ev_done := ev_done ev |}) <$> e.

(** The record an event becomes.  zerolog leaves the message field out of a
    record whose message is empty. *)
Definition line_of (ev : event) (msg : string) : Line :=
  {| ln_writer := ev_w ev; ln_level := ev_level ev; ln_context := ev_context ev;
     ln_fields := ev_fields ev; ln_message := msg |}.

(** [e.Msg(msg)]: write the record, report a failed write on standard error
    and go on, then run the [done] hook. *)
Definition Event_Msg (e : Event) (msg : string) : Go () :=
  match e with
  | None => mret ()
  | Some ev =>
      err ← Writer_Write (lw_out (ev_w ev)) (line_of ev msg);
      match err with
      | Some s => Fprintf_stderr ("zerolog: could not write event: " +:+ s)
      | None => mret ()
      end;;
      match ev_done ev with
      | Some code => os_Exit code
      | None => mret ()
      end
  end.

(** [e.Msgf(format, v...)] *)
Definition Event_Msgf `{Fmt} (e : Event) (format : string) (v : list any) : Go () :=
  match e with
  | None => mret ()
  | Some _ => Event_Msg e (Sprintf format v)
  end.

(** [span.AddEvent(name, trace.WithAttributes(...))], [span.SetStatus(code, msg)] *)
Definition Span_AddEvent (s : Span) (name : string) (attributes : list (string * string)) : Go () :=
  λ w, Ret () (set_span_calls (λ l, l ++ [(span_ref s, AddEvent name attributes)]) w).

Definition Span_SetStatus (s : Span) (code : Z) (description : string) : Go () :=
  λ w, Ret () (set_span_calls (λ l, l ++ [(span_ref s, SetStatus code description)]) w).

(** [ctx.Value(key)]: a method call on a nil interface panics. *)
Definition Context_Value (ctx : option Context) (key : string) : Go (option any) :=
  match ctx with
  | None => panic
  | Some c => mret (ctx_values c !! key)
  end.

(** ** The facade: construction *)

Definition LogIDKey : string := "request_id".
Definition ReqIDKey : string := "X-Request-ID".

(** config holds the configuration for the logger. *)
Record config : Type := {
  cfg_output : Writer;
  cfg_level : Level;
  cfg_tp : TracerProvider;
  cfg_format : FormatType;
  cfg_loggerEnrichers : list (zerolog_Logger → zerolog_Logger)
}.

(** Option configures the logger.  In Go it updates the configuration it is
    given a pointer to; here it returns the updated configuration. *)
Definition Option : Type := config → config.

(** WithOutput sets the output writer for the logger. *)
Definition WithOutput (output : Writer) : Option := λ c,
  {| cfg_output := output; cfg_level := cfg_level c; cfg_tp := cfg_tp c;
     cfg_format := cfg_format c; cfg_loggerEnrichers := cfg_loggerEnrichers c |}.

(** WithLevel sets the log level for the logger. *)
Definition WithLevel (level : Level) : Option := λ c,
  {| cfg_output := cfg_output c; cfg_level := level; cfg_tp := cfg_tp c;
     cfg_format := cfg_format c; cfg_loggerEnrichers := cfg_loggerEnrichers c |}.

(** WithTraceProvider sets the OpenTelemetry trace provider; a nil provider
    is replaced by the no-op one. *)
Definition WithTraceProvider (tp : option TracerProvider) : Option := λ c,
  {| cfg_output := cfg_output c; cfg_level := cfg_level c;
     cfg_tp := match tp with Some p => p | None => NoopTracerProvider end;
     cfg_format := cfg_format c; cfg_loggerEnrichers := cfg_loggerEnrichers c |}.

(** WithFormat sets the output format for the logger (Console or JSON). *)
Definition WithFormat (format : FormatType) : Option := λ c,
  {| cfg_output := cfg_output c; cfg_level := cfg_level c; cfg_tp := cfg_tp c;
     cfg_format := format; cfg_loggerEnrichers := cfg_loggerEnrichers c |}.

(** WithZerologOptions sets additional zerolog options using enricher functions. *)
Definition WithZerologOptions (enrichers : list (zerolog_Logger → zerolog_Logger)) : Option := λ c,
  {| cfg_output := cfg_output c; cfg_level := cfg_level c; cfg_tp := cfg_tp c;
     cfg_format := cfg_format c;
     cfg_loggerEnrichers := cfg_loggerEnrichers c ++ enrichers |}.

(** The configuration [New] starts from. *)
Definition default_config : config :=
  {| cfg_output := Stdout; cfg_level := LevelInfo; cfg_tp := NoopTracerProvider;
     cfg_format := ConsoleFormat; cfg_loggerEnrichers := [] |}.

(** [for _, opt := range options { opt(cfg) }] *)
Definition apply_options (options : list Option) (cfg : config) : config :=
  foldl (λ c opt, opt c) cfg options.

(** New creates a new ZLogger instance. *)
Definition New (options : list Option) : ZLogger :=
  let cfg := apply_options options default_config in
  let zlogger :=
    if decide (cfg_format cfg = JSONFormat) then
      With_Timestamp_Caller
        (Logger_Level (zerolog_New (JSONWriter (cfg_output cfg)))
                      (toZerologLevel (cfg_level cfg))) 3
    else if decide (cfg_format cfg = ConsoleFormat) then
      let consoleWriter := ConsoleWriter (cfg_output cfg) RFC3339 in
      With_Timestamp_Caller
        (Logger_Level (zerolog_New consoleWriter) (toZerologLevel (cfg_level cfg))) 3
    else
      let consoleWriter := ConsoleWriter (cfg_output cfg) RFC3339 in
      With_Timestamp_Caller
        (Logger_Level (zerolog_New consoleWriter) (toZerologLevel (cfg_level cfg))) 3 in
  let zlogger := foldl (λ l enricher, enricher l) zlogger (cfg_loggerEnrichers cfg) in
  {| zl_logger := zlogger; zl_level := cfg_level cfg; zl_tp := cfg_tp cfg;
     zl_format := cfg_format cfg |}.

(** ** The facade: control *)

Definition ZLogger_SetLevel (zl : ZLogger) (level : Level) : ZLogger :=
  {| zl_logger := Logger_Level (zl_logger zl) (toZerologLevel level);
     zl_level := level; zl_tp := zl_tp zl; zl_format := zl_format zl |}.

(** Rebuild logger with the same configuration but new output. *)
Definition ZLogger_SetOutput (zl : ZLogger) (w : Writer) : ZLogger :=
  let zlogger :=
    if decide (zl_format zl = JSONFormat) then
      With_Timestamp_Caller
        (Logger_Level (zerolog_New (JSONWriter w)) (toZerologLevel (zl_level zl))) 3
    else if decide (zl_format zl = ConsoleFormat) then
      let consoleWriter := ConsoleWriter w DateTime in
      With_Timestamp_Caller
        (Logger_Level (zerolog_New consoleWriter) (toZerologLevel (zl_level zl))) 3
    else
      let consoleWriter := ConsoleWriter w RFC3339 in
      With_Timestamp_Caller
        (Logger_Level (zerolog_New consoleWriter) (toZerologLevel (zl_level zl))) 3 in
  {| zl_logger := zlogger; zl_level := zl_level zl; zl_tp := zl_tp zl;
     zl_format := zl_format zl |}.

(** ** The facade: plain and formatted calls *)

Section Calls.
Context `{Fmt}.

Definition ZLogger_Trace (zl : ZLogger) (v : list any) : Go () :=
    e ← Logger_Trace (zl_logger zl); Event_Msg e (Sprint v).

Definition ZLogger_Debug (zl : ZLogger) (v : list any) : Go () :=
    e ← Logger_Debug (zl_logger zl); Event_Msg e (Sprint v).

Definition ZLogger_Info (zl : ZLogger) (v : list any) : Go () :=
    e ← Logger_Info (zl_logger zl); Event_Msg e (Sprint v).

  (** Map Notice to Warn level. *)
Definition ZLogger_Notice (zl : ZLogger) (v : list any) : Go () :=
    e ← Logger_Warn (zl_logger zl); Event_Msg e (Sprint v).

Definition ZLogger_Warn (zl : ZLogger) (v : list any) : Go () :=
    e ← Logger_Warn (zl_logger zl); Event_Msg e (Sprint v).

Definition ZLogger_Error (zl : ZLogger) (v : list any) : Go () :=
    e ← Logger_Error (zl_logger zl); Event_Msg e (Sprint v).

Definition ZLogger_Fatal (zl : ZLogger) (v : list any) : Go () :=
    e ← Logger_Fatal (zl_logger zl); Event_Msg e (Sprint v).

Definition ZLogger_Tracef (zl : ZLogger) (format : string) (v : list any) : Go () :=
    e ← Logger_Trace (zl_logger zl); Event_Msgf e format v.

Definition ZLogger_Debugf (zl : ZLogger) (format : string) (v : list any) : Go () :=
    e ← Logger_Debug (zl_logger zl); Event_Msgf e format v.

Definition ZLogger_Infof (zl : ZLogger) (format : string) (v : list any) : Go () :=
    e ← Logger_Info (zl_logger zl); Event_Msgf e format v.

  (** Map Noticef to Warnf level. *)
Definition ZLogger_Noticef (zl : ZLogger) (format : string) (v : list any) : Go () :=
    e ← Logger_Warn (zl_logger zl); Event_Msgf e format v.

Definition ZLogger_Warnf (zl : ZLogger) (format : string) (v : list any) : Go () :=
    e ← Logger_Warn (zl_logger zl); Event_Msgf e format v.

Definition ZLogger_Errorf (zl : ZLogger) (format : string) (v : list any) : Go () :=
    e ← Logger_Error (zl_logger zl); Event_Msgf e format v.

Definition ZLogger_Fatalf (zl : ZLogger) (format : string) (v : list any) : Go () :=
    e ← Logger_Fatal (zl_logger zl); Event_Msgf e format v.

  (** ** The context-field extractor *)

  (** getOtelFields extracts OpenTelemetry fields from context.  The result
      is [None] for the nil map. *)
Definition ZLogger_getOtelFields (zl : ZLogger) (ctx : option Context)
    : Go (option (gmap string any)) :=
    match ctx with
    | None => mret None
    | Some _ =>
        let fields : gmap string any := ∅ in
        reqID ← Context_Value ctx ReqIDKey;
        let fields :=
          match reqID with
          | Some r => <[LogIDKey := r]> fields
          | None => fields
          end in
        let span := trace_SpanFromContext ctx in
        let fields :=
          if SpanContext_IsValid (span_ctx span) then
            let traceID := sc_traceID (span_ctx span) in
            let spanID := sc_spanID (span_ctx span) in
            let fields :=
              if ID_IsValid traceID
              then <["trace_id" := VString (ID_String traceID)]> fields
              else fields in
            let fields :=
              if ID_IsValid spanID
              then <["span_id" := VString (ID_String spanID)]> fields
              else fields in
            let traceFlags := sc_traceFlags (span_ctx span) in
            if negb (Byte.eqb traceFlags Byte.x00)
            then <["trace_flags" := VString (Sprintf_02x traceFlags)]> fields
            else fields
          else fields in
        mret (Some fields)
    end.

  (** [for k, v := range fields { logEvt = logEvt.Str(k, fmt.Sprintf("%v", v)) }].
      Go fixes no order for the keys of a map; the model takes the order of
      [map_to_list], and no statement below depends on it.  Ranging over the
      nil map runs the body no time. *)
Definition range_Str (fields : option (gmap string any)) (logEvt : Event) : Event :=
    foldl (λ e kv, Event_Str e kv.1 (Sprintf "%v" [kv.2])) logEvt
          (from_option map_to_list [] fields).
End Calls.

(** ** The facade: context-aware calls *)

Section CtxCalls.
Context `{Fmt}.

Definition ZLogger_CtxTracef (zl : ZLogger) (ctx : option Context)
      (format : string) (v : list any) : Go () :=
    fields ← ZLogger_getOtelFields zl ctx;
    logEvt ← Logger_Trace (zl_logger zl);
    let logEvt := range_Str fields logEvt in
    Event_Msgf logEvt format v;;
    (* Add as event to the current span if it exists *)
    let span := trace_SpanFromContext ctx in
    if SpanContext_IsValid (span_ctx span) then
      Span_AddEvent span "log"
        [("message", Sprintf format v); ("level", "trace")]
    else mret ().

Definition ZLogger_CtxDebugf (zl : ZLogger) (ctx : option Context)
      (format : string) (v : list any) : Go () :=
    fields ← ZLogger_getOtelFields zl ctx;
    logEvt ← Logger_Debug (zl_logger zl);
    let logEvt := range_Str fields logEvt in
    Event_Msgf logEvt format v;;
    (* Add as event to the current span if it exists *)
    let span := trace_SpanFromContext ctx in
    if SpanContext_IsValid (span_ctx span) then
      Span_AddEvent span "log"
        [("message", Sprintf format v); ("level", "debug")]
    else mret ().

Definition ZLogger_CtxInfof (zl : ZLogger) (ctx : option Context)
      (format : string) (v : list any) : Go () :=
    fields ← ZLogger_getOtelFields zl ctx;
    logEvt ← Logger_Info (zl_logger zl);
    let logEvt := range_Str fields logEvt in
    Event_Msgf logEvt format v;;
    (* Add as event to the current span if it exists *)
    let span := trace_SpanFromContext ctx in
    if SpanContext_IsValid (span_ctx span) then
      Span_AddEvent span "log"
        [("message", Sprintf format v); ("level", "info")]
    else mret ().

Definition ZLogger_CtxNoticef (zl : ZLogger) (ctx : option Context)
      (format : string) (v : list any) : Go () :=
    fields ← ZLogger_getOtelFields zl ctx;
    logEvt ← Logger_Warn (zl_logger zl);  (* Map Notice to Warn level *)
    let logEvt := range_Str fields logEvt in
    Event_Msgf logEvt format v;;
    (* Add as event to the current span if it exists *)
    let span := trace_SpanFromContext ctx in
    if SpanContext_IsValid (span_ctx span) then
      Span_AddEvent span "log"
        [("message", Sprintf format v); ("level", "notice")]
    else mret ().

Definition ZLogger_CtxWarnf (zl : ZLogger) (ctx : option Context)
      (format : string) (v : list any) : Go () :=
    fields ← ZLogger_getOtelFields zl ctx;
    logEvt ← Logger_Warn (zl_logger zl);
    let logEvt := range_Str fields logEvt in
    Event_Msgf logEvt format v;;
    (* Add as event to the current span if it exists *)
    let span := trace_SpanFromContext ctx in
    if SpanContext_IsValid (span_ctx span) then
      Span_AddEvent span "log"
        [("message", Sprintf format v); ("level", "warn")]
    else mret ().

Definition ZLogger_CtxErrorf (zl : ZLogger) (ctx : option Context)
      (format : string) (v : list any) : Go () :=
    fields ← ZLogger_getOtelFields zl ctx;
    logEvt ← Logger_Error (zl_logger zl);
    let logEvt := range_Str fields logEvt in
    let msg := Sprintf format v in
    Event_Msg logEvt msg;;
    (* Add as event to the current span if it exists and mark span as error *)
    let span := trace_SpanFromContext ctx in
    if SpanContext_IsValid (span_ctx span) then
      Span_AddEvent span "log" [("message", msg); ("level", "error")];;
      (* Mark the span as error *)
      Span_SetStatus span codes_Error msg
    else mret ().

Definition ZLogger_CtxFatalf (zl : ZLogger) (ctx : option Context)
      (format : string) (v : list any) : Go () :=
    fields ← ZLogger_getOtelFields zl ctx;
    logEvt ← Logger_Fatal (zl_logger zl);
    let logEvt := range_Str fields logEvt in
    let msg := Sprintf format v in
    Event_Msg logEvt msg;;
    (* Add as event to the current span if it exists and mark span as error *)
    let span := trace_SpanFromContext ctx in
    if SpanContext_IsValid (span_ctx span) then
      Span_AddEvent span "log" [("message", msg); ("level", "fatal")];;
      (* Mark the span as error *)
      Span_SetStatus span codes_Error msg
    else mret ().

  (** The method of each severity, by kind of call. *)
Definition ZLogger_plain (s : Severity) : ZLogger → list any → Go () :=
    match s with
    | Trace => ZLogger_Trace | Debug => ZLogger_Debug | Info => ZLogger_Info
    | Notice => ZLogger_Notice | Warn => ZLogger_Warn | Error => ZLogger_Error
    | Fatal => ZLogger_Fatal
    end.

Definition ZLogger_formatted (s : Severity) : ZLogger → string → list any → Go () :=
    match s with
    | Trace => ZLogger_Tracef | Debug => ZLogger_Debugf | Info => ZLogger_Infof
    | Notice => ZLogger_Noticef | Warn => ZLogger_Warnf | Error => ZLogger_Errorf
    | Fatal => ZLogger_Fatalf
    end.

Definition ZLogger_ctx (s : Severity)
    : ZLogger → option Context → string → list any → Go () :=
    match s with
    | Trace => ZLogger_CtxTracef | Debug => ZLogger_CtxDebugf | Info => ZLogger_CtxInfof
    | Notice => ZLogger_CtxNoticef | Warn => ZLogger_CtxWarnf | Error => ZLogger_CtxErrorf
    | Fatal => ZLogger_CtxFatalf
    end.
End CtxCalls.

(** The engine level the methods of a severity create their event at, and
    the tag they give the span event. *)
Definition event_level (s : Severity) : zLevel :=
  match s with
  | Trace => TraceLevel | Debug => DebugLevel | Info => InfoLevel
  | Notice => WarnLevel | Warn => WarnLevel | Error => ErrorLevel
  | Fatal => FatalLevel
  end.

Definition level_tag (s : Severity) : string :=
  match s with
  | Trace => "trace" | Debug => "debug" | Info => "info" | Notice => "notice"
  | Warn => "warn" | Error => "error" | Fatal => "fatal"
  end.

(** ** Log rotation *)

(** RotateConfig holds the configuration for log rotation. *)
Record RotateConfig : Type := {
  Filename : string;
  MaxSize : Z;
  MaxBackups : Z;
  MaxAge : Z;
  Compress : bool;
  LocalTime : bool
}.

(** RotatingLogger provides log rotation functionality.  [rl_baseLogger] is a
    [*ZLogger] that only this struct holds, so the model keeps the value. *)
Record RotatingLogger : Type := {
  rl_baseLogger : ZLogger;
  rl_writer : Writer;
  rl_config : RotateConfig
}.

(** [&lumberjack.Logger{...}] with the six fields of the configuration. *)
Definition lumberjackLogger (config : RotateConfig) : lumberjack.Logger :=
  {| lumberjack.Filename := Filename config;
     lumberjack.MaxSize := MaxSize config;
     lumberjack.MaxBackups := MaxBackups config;
     lumberjack.MaxAge := MaxAge config;
     lumberjack.Compress := Compress config;
     lumberjack.LocalTime := LocalTime config |}.

(** NewRotatingLogger creates a new logger with rotation capabilities,
    using console format by default. *)
Definition NewRotatingLogger (config : RotateConfig) : RotatingLogger :=
  let lj := Lumberjack (lumberjackLogger config) in
  let zLogger := New [WithOutput lj; WithFormat ConsoleFormat] in
  {| rl_baseLogger := zLogger; rl_writer := lj; rl_config := config |}.

(** NewRotatingLoggerWithFormat creates a new logger with rotation
    capabilities and specified format. *)
Definition NewRotatingLoggerWithFormat (config : RotateConfig) (format : FormatType)
  : RotatingLogger :=
  let lj := Lumberjack (lumberjackLogger config) in
  let zLogger := New [WithOutput lj; WithFormat format] in
  {| rl_baseLogger := zLogger; rl_writer := lj; rl_config := config |}.

(** WithRotation is an option function that configures the logger with rotation. *)
Definition WithRotation (config : RotateConfig) : Option :=
  WithOutput (Lumberjack (lumberjackLogger config)).

(** WithRotationAndFormat configures the logger with rotation and format. *)
Definition WithRotationAndFormat (rotationConfig : RotateConfig) (format : FormatType)
  : Option := λ c,
  {| cfg_output := Lumberjack (lumberjackLogger rotationConfig);
     cfg_level := cfg_level c; cfg_tp := cfg_tp c; cfg_format := format;
     cfg_loggerEnrichers := cfg_loggerEnrichers c |}.

(** Modelled from the spec: [lumberjack.Logger.Rotate] belongs to the
    rotation library, which is not part of this repository.  It closes the
    file, renames it and opens a fresh one, and signals a failure of the
    destination as an explicit error result. *)
Definition lumberjack_Rotate (lj : lumberjack.Logger) : Go error := λ w,
  if broken w (Lumberjack lj) then Ret (Some "rotate failed") w
  else Ret None (set_rotations (λ l, l ++ [lumberjack.Filename lj]) w).

(** Rotate manually rotates the log file. *)
Definition RotatingLogger_Rotate (rl : RotatingLogger) : Go error :=
  match rl_writer rl with
  | Lumberjack lj => lumberjack_Rotate lj
  | _ => mret (Some "unable to rotate: writer is not a lumberjack.Logger")
  end.

(** GetRotatingWriter returns the underlying lumberjack writer. *)
Definition RotatingLogger_GetRotatingWriter (rl : RotatingLogger)
  : option lumberjack.Logger :=
  match rl_writer rl with
  | Lumberjack lj => Some lj
  | _ => None
  end.

(** SetLevel implements the Control interface for RotatingLogger. *)
Definition RotatingLogger_SetLevel (rl : RotatingLogger) (level : Level) : RotatingLogger :=
  {| rl_baseLogger := ZLogger_SetLevel (rl_baseLogger rl) level;
     rl_writer := rl_writer rl; rl_config := rl_config rl |}.

(** SetOutput implements the Control interface for RotatingLogger: a new
    [ZLogger] from the new writer and the level of the old one. *)
Definition RotatingLogger_SetOutput (rl : RotatingLogger) (w : Writer) : RotatingLogger :=
  let newZLogger := New [WithOutput w; WithLevel (zl_level (rl_baseLogger rl))] in
  {| rl_baseLogger := newZLogger; rl_writer := rl_writer rl; rl_config := rl_config rl |}.

Section RotatingCalls.
Context `{Fmt}.

Definition RotatingLogger_Trace (rl : RotatingLogger) (v : list any) : Go () :=
    ZLogger_Trace (rl_baseLogger rl) v.

Definition RotatingLogger_Debug (rl : RotatingLogger) (v : list any) : Go () :=
    ZLogger_Debug (rl_baseLogger rl) v.

Definition RotatingLogger_Info (rl : RotatingLogger) (v : list any) : Go () :=
    ZLogger_Info (rl_baseLogger rl) v.

Definition RotatingLogger_Notice (rl : RotatingLogger) (v : list any) : Go () :=
    ZLogger_Notice (rl_baseLogger rl) v.

Definition RotatingLogger_Warn (rl : RotatingLogger) (v : list any) : Go () :=
    ZLogger_Warn (rl_baseLogger rl) v.

Definition RotatingLogger_Error (rl : RotatingLogger) (v : list any) : Go () :=
    ZLogger_Error (rl_baseLogger rl) v.

Definition RotatingLogger_Fatal (rl : RotatingLogger) (v : list any) : Go () :=
    ZLogger_Fatal (rl_baseLogger rl) v.

Definition RotatingLogger_Tracef (rl : RotatingLogger) (format : string) (v : list any)
    : Go () :=
    ZLogger_Tracef (rl_baseLogger rl) format v.

Definition RotatingLogger_Debugf (rl : RotatingLogger) (format : string) (v : list any)
    : Go () :=
    ZLogger_Debugf (rl_baseLogger rl) format v.

Definition RotatingLogger_Infof (rl : RotatingLogger) (format : string) (v : list any)
    : Go () :=
    ZLogger_Infof (rl_baseLogger rl) format v.

Definition RotatingLogger_Noticef (rl : RotatingLogger) (format : string) (v : list any)
    : Go () :=
    ZLogger_Noticef (rl_baseLogger rl) format v.

Definition RotatingLogger_Warnf (rl : RotatingLogger) (format : string) (v : list any)
    : Go () :=
    ZLogger_Warnf (rl_baseLogger rl) format v.

Definition RotatingLogger_Errorf (rl : RotatingLogger) (format : string) (v : list any)
    : Go () :=
    ZLogger_Errorf (rl_baseLogger rl) format v.

Definition RotatingLogger_Fatalf (rl : RotatingLogger) (format : string) (v : list any)
    : Go () :=
    ZLogger_Fatalf (rl_baseLogger rl) format v.

Definition RotatingLogger_CtxTracef (rl : RotatingLogger) (ctx : option Context)
      (format : string) (v : list any) : Go () :=
    ZLogger_CtxTracef (rl_baseLogger rl) ctx format v.

Definition RotatingLogger_CtxDebugf (rl : RotatingLogger) (ctx : option Context)
      (format : string) (v : list any) : Go () :=
    ZLogger_CtxDebugf (rl_baseLogger rl) ctx format v.

Definition RotatingLogger_CtxInfof (rl : RotatingLogger) (ctx : option Context)
      (format : string) (v : list any) : Go () :=
    ZLogger_CtxInfof (rl_baseLogger rl) ctx format v.

Definition RotatingLogger_CtxNoticef (rl : RotatingLogger) (ctx : option Context)
      (format : string) (v : list any) : Go () :=
    ZLogger_CtxNoticef (rl_baseLogger rl) ctx format v.

Definition RotatingLogger_CtxWarnf (rl : RotatingLogger) (ctx : option Context)
      (format : string) (v : list any) : Go () :=
    ZLogger_CtxWarnf (rl_baseLogger rl) ctx format v.

Definition RotatingLogger_CtxErrorf (rl : RotatingLogger) (ctx : option Context)
      (format : string) (v : list any) : Go () :=
    ZLogger_CtxErrorf (rl_baseLogger rl) ctx format v.

Definition RotatingLogger_CtxFatalf (rl : RotatingLogger) (ctx : option Context)
      (format : string) (v : list any) : Go () :=
    ZLogger_CtxFatalf (rl_baseLogger rl) ctx format v.
(** The method of each severity, by kind of call. *)
Definition RotatingLogger_plain (s : Severity) : RotatingLogger → list any → Go () :=
    match s with
    | Trace => RotatingLogger_Trace | Debug => RotatingLogger_Debug
    | Info => RotatingLogger_Info | Notice => RotatingLogger_Notice
    | Warn => RotatingLogger_Warn | Error => RotatingLogger_Error
    | Fatal => RotatingLogger_Fatal
    end.

Definition RotatingLogger_formatted (s : Severity)
    : RotatingLogger → string → list any → Go () :=
    match s with
    | Trace => RotatingLogger_Tracef | Debug => RotatingLogger_Debugf
    | Info => RotatingLogger_Infof | Notice => RotatingLogger_Noticef
    | Warn => RotatingLogger_Warnf | Error => RotatingLogger_Errorf
    | Fatal => RotatingLogger_Fatalf
    end.

Definition RotatingLogger_ctx (s : Severity)
    : RotatingLogger → option Context → string → list any → Go () :=
    match s with
    | Trace => RotatingLogger_CtxTracef | Debug => RotatingLogger_CtxDebugf
    | Info => RotatingLogger_CtxInfof | Notice => RotatingLogger_CtxNoticef
    | Warn => RotatingLogger_CtxWarnf | Error => RotatingLogger_CtxErrorf
    | Fatal => RotatingLogger_CtxFatalf
    end.
End RotatingCalls.

(** ** Pointers to loggers

    A [*ZLogger] is a location; a location the heap does not map is the nil
    pointer, and a method that reads a field through it panics. *)

Definition alloc (zl : ZLogger) : Go nat := λ w,
  let p := fresh (dom (heap w)) in
  Ret p (set_heap (λ h, <[p := zl]> h) w).

Definition deref (p : nat) : Go ZLogger := λ w,
  match heap w !! p with
  | Some zl => Ret zl w
  | None => Panic w
  end.

Definition assign (p : nat) (zl : ZLogger) : Go () := λ w,
  Ret () (set_heap (λ h, <[p := zl]> h) w).

(** A method with a pointer receiver that only reads the logger, and one
    that updates it in place. *)
Definition method {A} (p : nat) (body : ZLogger → Go A) : Go A :=
  zl ← deref p; body zl.

Definition method_update (p : nat) (body : ZLogger → ZLogger) : Go () :=
  zl ← deref p; assign p (body zl).

(** ** The adapter to hlog *)

(** HlogAdapter adapts ZLogger to be compatible with hlog interface. *)
Record HlogAdapter : Type := {
  h_logger : nat
}.

(** NewHlogAdapter creates a new adapter that makes ZLogger compatible with hlog. *)
Definition NewHlogAdapter (zlogger : nat) : HlogAdapter :=
  {| h_logger := zlogger |}.

Section AdapterCalls.
Context `{Fmt}.

Definition HlogAdapter_Trace (h : HlogAdapter) (v : list any) : Go () :=
    method (h_logger h) (λ zl, ZLogger_Trace zl v).

Definition HlogAdapter_Debug (h : HlogAdapter) (v : list any) : Go () :=
    method (h_logger h) (λ zl, ZLogger_Debug zl v).

Definition HlogAdapter_Info (h : HlogAdapter) (v : list any) : Go () :=
    method (h_logger h) (λ zl, ZLogger_Info zl v).

Definition HlogAdapter_Notice (h : HlogAdapter) (v : list any) : Go () :=
    method (h_logger h) (λ zl, ZLogger_Notice zl v).

Definition HlogAdapter_Warn (h : HlogAdapter) (v : list any) : Go () :=
    method (h_logger h) (λ zl, ZLogger_Warn zl v).

Definition HlogAdapter_Error (h : HlogAdapter) (v : list any) : Go () :=
    method (h_logger h) (λ zl, ZLogger_Error zl v).

Definition HlogAdapter_Fatal (h : HlogAdapter) (v : list any) : Go () :=
    method (h_logger h) (λ zl, ZLogger_Fatal zl v).

Definition HlogAdapter_Tracef (h : HlogAdapter) (format : string) (v : list any) : Go () :=
    method (h_logger h) (λ zl, ZLogger_Tracef zl format v).

Definition HlogAdapter_Debugf (h : HlogAdapter) (format : string) (v : list any) : Go () :=
    method (h_logger h) (λ zl, ZLogger_Debugf zl format v).

Definition HlogAdapter_Infof (h : HlogAdapter) (format : string) (v : list any) : Go () :=
    method (h_logger h) (λ zl, ZLogger_Infof zl format v).

Definition HlogAdapter_Noticef (h : HlogAdapter) (format : string) (v : list any) : Go () :=
    method (h_logger h) (λ zl, ZLogger_Noticef zl format v).

Definition HlogAdapter_Warnf (h : HlogAdapter) (format : string) (v : list any) : Go () :=
    method (h_logger h) (λ zl, ZLogger_Warnf zl format v).

Definition HlogAdapter_Errorf (h : HlogAdapter) (format : string) (v : list any) : Go () :=
    method (h_logger h) (λ zl, ZLogger_Errorf zl format v).

Definition HlogAdapter_Fatalf (h : HlogAdapter) (format : string) (v : list any) : Go () :=
    method (h_logger h) (λ zl, ZLogger_Fatalf zl format v).

Definition HlogAdapter_CtxTracef (h : HlogAdapter) (ctx : option Context)
      (format : string) (v : list any) : Go () :=
    method (h_logger h) (λ zl, ZLogger_CtxTracef zl ctx format v).

Definition HlogAdapter_CtxDebugf (h : HlogAdapter) (ctx : option Context)
      (format : string) (v : list any) : Go () :=
    method (h_logger h) (λ zl, ZLogger_CtxDebugf zl ctx format v).

Definition HlogAdapter_CtxInfof (h : HlogAdapter) (ctx : option Context)
      (format : string) (v : list any) : Go () :=
    method (h_logger h) (λ zl, ZLogger_CtxInfof zl ctx format v).

Definition HlogAdapter_CtxNoticef (h : HlogAdapter) (ctx : option Context)
      (format : string) (v : list any) : Go () :=
    method (h_logger h) (λ zl, ZLogger_CtxNoticef zl ctx format v).

Definition HlogAdapter_CtxWarnf (h : HlogAdapter) (ctx : option Context)
      (format : string) (v : list any) : Go () :=
    method (h_logger h) (λ zl, ZLogger_CtxWarnf zl ctx format v).

Definition HlogAdapter_CtxErrorf (h : HlogAdapter) (ctx : option Context)
      (format : string) (v : list any) : Go () :=
    method (h_logger h) (λ zl, ZLogger_CtxErrorf zl ctx format v).

Definition HlogAdapter_CtxFatalf (h : HlogAdapter) (ctx : option Context)
      (format : string) (v : list any) : Go () :=
    method (h_logger h) (λ zl, ZLogger_CtxFatalf zl ctx format v).

Definition HlogAdapter_SetLevel (h : HlogAdapter) (level : Level) : Go () :=
    method_update (h_logger h) (λ zl, ZLogger_SetLevel zl level).

Definition HlogAdapter_SetOutput (h : HlogAdapter) (w : Writer) : Go () :=
    method_update (h_logger h) (λ zl, ZLogger_SetOutput zl w).

  (** The method set of [hlog.FullLogger], as data: one call with its
      arguments. *)
Inductive Call : Type :=
  | CallPlain (s : Severity) (v : list any)
  | CallFormatted (s : Severity) (format : string) (v : list any)
  | CallCtx (s : Severity) (ctx : option Context) (format : string) (v : list any)
  | CallSetLevel (level : Level)
  | CallSetOutput (w : Writer).

  (** The call made on the adapter. *)
Definition HlogAdapter_call (h : HlogAdapter) (c : Call) : Go () :=
    match c with
    | CallPlain Trace v => HlogAdapter_Trace h v
    | CallPlain Debug v => HlogAdapter_Debug h v
    | CallPlain Info v => HlogAdapter_Info h v
    | CallPlain Notice v => HlogAdapter_Notice h v
    | CallPlain Warn v => HlogAdapter_Warn h v
    | CallPlain Error v => HlogAdapter_Error h v
    | CallPlain Fatal v => HlogAdapter_Fatal h v
    | CallFormatted Trace format v => HlogAdapter_Tracef h format v
    | CallFormatted Debug format v => HlogAdapter_Debugf h format v
    | CallFormatted Info format v => HlogAdapter_Infof h format v
    | CallFormatted Notice format v => HlogAdapter_Noticef h format v
    | CallFormatted Warn format v => HlogAdapter_Warnf h format v
    | CallFormatted Error format v => HlogAdapter_Errorf h format v
    | CallFormatted Fatal format v => HlogAdapter_Fatalf h format v
    | CallCtx Trace ctx format v => HlogAdapter_CtxTracef h ctx format v
    | CallCtx Debug ctx format v => HlogAdapter_CtxDebugf h ctx format v
    | CallCtx Info ctx format v => HlogAdapter_CtxInfof h ctx format v
    | CallCtx Notice ctx format v => HlogAdapter_CtxNoticef h ctx format v
    | CallCtx Warn ctx format v => HlogAdapter_CtxWarnf h ctx format v
    | CallCtx Error ctx format v => HlogAdapter_CtxErrorf h ctx format v
    | CallCtx Fatal ctx format v => HlogAdapter_CtxFatalf h ctx format v
    | CallSetLevel level => HlogAdapter_SetLevel h level
    | CallSetOutput w => HlogAdapter_SetOutput h w
    end.

End AdapterCalls.

(** ** The rest of the facade: the second extractor *)

(** getContextFields extracts fields from context for logging.  It reads the
    request id under the context key ["request_id"], where [getOtelFields]
    reads it under [ReqIDKey]. *)
Definition getContextFields (ctx : option Context) : Go (option (gmap string any)) :=
  match ctx with
  | None => mret None
  | Some _ =>
      let fields : gmap string any := ∅ in
      reqID ← Context_Value ctx "request_id";
      let fields :=
        match reqID with
        | Some r => <["request_id" := r]> fields
        | None => fields
        end in
      let span := trace_SpanFromContext ctx in
      let fields :=
        if SpanContext_IsValid (span_ctx span) then
          let traceID := sc_traceID (span_ctx span) in
          let spanID := sc_spanID (span_ctx span) in
          let fields :=
            if ID_IsValid traceID
            then <["trace_id" := VString (ID_String traceID)]> fields
            else fields in
          let fields :=
            if ID_IsValid spanID
            then <["span_id" := VString (ID_String spanID)]> fields
            else fields in
          let traceFlags := sc_traceFlags (span_ctx span) in
          if negb (Byte.eqb traceFlags Byte.x00)
          then <["trace_flags" := VString (Sprintf_02x traceFlags)]> fields
          else fields
        else fields in
      mret (Some fields)
  end.

(** ** OpenTelemetry tracing integration *)

(** [context.Background()]: no value, no span. *)
Definition context_Background : Context :=
  {| ctx_values := ∅; ctx_span := None |}.

(** [trace.Tracer], as the provider and the name it was asked with. *)
Record Tracer : Type := {
  tracer_provider : TracerProvider;
  tracer_name : string
}.

Definition TracerProvider_Tracer (tp : TracerProvider) (name : string) : Tracer :=
  {| tracer_provider := tp; tracer_name := name |}.

(** OtelHook is a zerolog hook that integrates with OpenTelemetry. *)
Record OtelHook : Type := {
  traceProvider : TracerProvider;
  tracer : Tracer
}.

(** NewOtelHook creates a new OpenTelemetry hook; a nil provider is replaced
    by the no-op one. *)
Definition NewOtelHook (tp : option TracerProvider) : OtelHook :=
  let tp := match tp with Some p => p | None => NoopTracerProvider end in
  {| traceProvider := tp; tracer := TracerProvider_Tracer tp "zlog" |}.

(** [zerolog.Level.String] *)
Definition Level_String (l : zLevel) : string :=
  if decide (l = TraceLevel) then "trace"
  else if decide (l = DebugLevel) then "debug"
  else if decide (l = InfoLevel) then "info"
  else if decide (l = WarnLevel) then "warn"
  else if decide (l = ErrorLevel) then "error"
  else if decide (l = FatalLevel) then "fatal"
  else if decide (l = PanicLevel) then "panic"
  else if decide (l = Disabled) then "disabled"
  else if decide (l = NoLevel) then ""
  else pretty l.

(** Run implements the zerolog.Hook interface.  The context it looks the
    span up in is [context.Background()]. *)
Definition OtelHook_Run (h : OtelHook) (e : Event) (level : zLevel) (msg : string) : Go () :=
  let ctx := Some context_Background in
  let span := trace_SpanFromContext ctx in
  if SpanContext_IsValid (span_ctx span) then
    Span_AddEvent span "log" [("message", msg); ("level", Level_String level)];;
    if bool_decide (ErrorLevel ≤ level) then Span_SetStatus span codes_Error msg
    else mret ()
  else mret ().

(** AddOtelFieldsToContext adds OpenTelemetry trace fields to context: the
    nil map when the span of the context is not valid. *)
Definition AddOtelFieldsToContext (ctx : option Context) : option (gmap string any) :=
  let span := trace_SpanFromContext ctx in
  if negb (SpanContext_IsValid (span_ctx span)) then None
  else
    let fields : gmap string any := ∅ in
    let traceID := sc_traceID (span_ctx span) in
    let spanID := sc_spanID (span_ctx span) in
    let fields :=
      if ID_IsValid traceID
      then <["trace_id" := VString (ID_String traceID)]> fields
      else fields in
    let fields :=
      if ID_IsValid spanID
      then <["span_id" := VString (ID_String spanID)]> fields
      else fields in
    let traceFlags := sc_traceFlags (span_ctx span) in
    let fields :=
      if negb (Byte.eqb traceFlags Byte.x00)
      then <["trace_flags" := VString (Sprintf_02x traceFlags)]> fields
      else fields in
    Some fields.

(** [len(fields)] of a map that may be nil. *)
Definition len (fields : option (gmap string any)) : nat :=
  from_option size 0%nat fields.

(** The text zerolog gives a value of a field set through [Fields]. *)
Definition Fields_value (v : any) : string :=
  match v with
  | VString s => s
  | VInt n => pretty n
  | VBool b => if b then "true" else "false"
  end.

Definition key_le (a b : string * any) : Prop := String.leb a.1 b.1.

(** [l.With().Fields(fields).Logger()]: zerolog adds the entries of a map in
    the order of their keys. *)
Definition With_Fields (l : zerolog_Logger) (fields : gmap string any) : zerolog_Logger :=
  {| zw := zw l; zlevel := zlevel l;
     zcontext := zcontext l
                 ++ ((λ kv, StrField kv.1 (Fields_value kv.2))
                       <$> merge_sort key_le (map_to_list fields)) |}.

(** AddOtelHooks adds OpenTelemetry hooks to a ZLogger instance. *)
Definition ZLogger_AddOtelHooks (zl : ZLogger) (ctx : option Context) : ZLogger :=
  let fields := AddOtelFieldsToContext ctx in
  if decide (len fields = 0%nat) then zl
  else
    let newLogger := With_Fields (zl_logger zl) (default ∅ fields) in
    {| zl_logger := newLogger; zl_level := zl_level zl; zl_tp := zl_tp zl;
       zl_format := zl_format zl |}.

(** SetTraceProvider allows dynamic changing of the trace provider.  Its
    body is commented out in the source. *)
Definition ZLogger_SetTraceProvider (zl : ZLogger) (tp : option TracerProvider) : ZLogger :=
  zl.

Section TraceCalls.
Context `{Fmt}.

(** CtxInfofWithTrace adds trace information and logs the message. *)
Definition ZLogger_CtxInfofWithTrace (zl : ZLogger) (ctx : option Context)
    (format : string) (v : list any) : Go () :=
  let fields := AddOtelFieldsToContext ctx in
  logEvt ← Logger_Info (zl_logger zl);
  let logEvt := range_Str fields logEvt in
  Event_Msgf logEvt format v;;
  let span := trace_SpanFromContext ctx in
  if SpanContext_IsValid (span_ctx span) then
    Span_AddEvent span "log"
      [("message", Sprintf format v); ("level", "info")]
  else mret ().

(** CtxErrorfWithTrace adds trace information and logs the error message. *)
Definition ZLogger_CtxErrorfWithTrace (zl : ZLogger) (ctx : option Context)
    (format : string) (v : list any) : Go () :=
  let fields := AddOtelFieldsToContext ctx in
  logEvt ← Logger_Error (zl_logger zl);
  let logEvt := range_Str fields logEvt in
  let msg := Sprintf format v in
  Event_Msg logEvt msg;;
  let span := trace_SpanFromContext ctx in
  if SpanContext_IsValid (span_ctx span) then
    Span_AddEvent span "log" [("message", msg); ("level", "error")];;
    Span_SetStatus span codes_Error msg
  else mret ().
End TraceCalls.

(** ** The rotation configuration *)

(** RotateConfigOption configures the RotateConfig. *)
Definition RotateConfigOption : Type := RotateConfig → RotateConfig.

(** WithMaxSize sets the maximum size in megabytes of the log file before rotation. *)
Definition WithMaxSize (maxSize : Z) : RotateConfigOption := λ c,
  {| Filename := Filename c; MaxSize := maxSize; MaxBackups := MaxBackups c;
     MaxAge := MaxAge c; Compress := Compress c; LocalTime := LocalTime c |}.

(** WithMaxBackups sets the maximum number of old log files to retain. *)
Definition WithMaxBackups (maxBackups : Z) : RotateConfigOption := λ c,
  {| Filename := Filename c; MaxSize := MaxSize c; MaxBackups := maxBackups;
     MaxAge := MaxAge c; Compress := Compress c; LocalTime := LocalTime c |}.

(** WithMaxAge sets the maximum number of days to retain old log files. *)
Definition WithMaxAge (maxAge : Z) : RotateConfigOption := λ c,
  {| Filename := Filename c; MaxSize := MaxSize c; MaxBackups := MaxBackups c;
     MaxAge := maxAge; Compress := Compress c; LocalTime := LocalTime c |}.

(** WithCompress sets whether the rotated log files should be compressed. *)
Definition WithCompress (compress : bool) : RotateConfigOption := λ c,
  {| Filename := Filename c; MaxSize := MaxSize c; MaxBackups := MaxBackups c;
     MaxAge := MaxAge c; Compress := compress; LocalTime := LocalTime c |}.

(** WithLocalTime sets whether to use local time for the backup file names. *)
Definition WithLocalTime (localTime : bool) : RotateConfigOption := λ c,
  {| Filename := Filename c; MaxSize := MaxSize c; MaxBackups := MaxBackups c;
     MaxAge := MaxAge c; Compress := Compress c; LocalTime := localTime |}.

(** GetDefaultRotateConfig returns a default rotation configuration with
    optional configurations. *)
Definition GetDefaultRotateConfig (filename : string) (opts : list RotateConfigOption)
  : RotateConfig :=
  let c := {| Filename := filename; MaxSize := 20; MaxBackups := 5; MaxAge := 10;
              Compress := true; LocalTime := true |} in
  foldl (λ c opt, opt c) c opts.

(** ** Vocabulary of the further statements *)

(** The five options the package provides for a rotation configuration. *)
Inductive RotateSetting : Type :=
| SetMaxSize (n : Z)
| SetMaxBackups (n : Z)
| SetMaxAge (n : Z)
| SetCompress (b : bool)
| SetLocalTime (b : bool).

Definition rotate_option (o : RotateSetting) : RotateConfigOption :=
  match o with
  | SetMaxSize n => WithMaxSize n
  | SetMaxBackups n => WithMaxBackups n
  | SetMaxAge n => WithMaxAge n
  | SetCompress b => WithCompress b
  | SetLocalTime b => WithLocalTime b
  end.

(** The argument of the last setting of each kind in a list, if any. *)
Definition last_MaxSize (os : list RotateSetting) : option Z :=
  last (omap (λ o, match o with SetMaxSize n => Some n | _ => None end) os).
Definition last_MaxBackups (os : list RotateSetting) : option Z :=
  last (omap (λ o, match o with SetMaxBackups n => Some n | _ => None end) os).
Definition last_MaxAge (os : list RotateSetting) : option Z :=
  last (omap (λ o, match o with SetMaxAge n => Some n | _ => None end) os).
Definition last_Compress (os : list RotateSetting) : option bool :=
  last (omap (λ o, match o with SetCompress b => Some b | _ => None end) os).
Definition last_LocalTime (os : list RotateSetting) : option bool :=
  last (omap (λ o, match o with SetLocalTime b => Some b | _ => None end) os).

(** The loggers reached from a logger by the four methods that assign to it. *)
Inductive evolves (zl0 : ZLogger) : ZLogger → Prop :=
| evolves_refl : evolves zl0 zl0
| evolves_SetLevel zl level :
    evolves zl0 zl → evolves zl0 (ZLogger_SetLevel zl level)
| evolves_SetOutput zl w :
    evolves zl0 zl → evolves zl0 (ZLogger_SetOutput zl w)
| evolves_SetTraceProvider zl tp :
    evolves zl0 zl → evolves zl0 (ZLogger_SetTraceProvider zl tp)
| evolves_AddOtelHooks zl ctx :
    evolves zl0 zl → evolves zl0 (ZLogger_AddOtelHooks zl ctx).

(** The rotating loggers reached from one by [SetLevel] and [SetOutput]. *)
Inductive rl_evolves (rl0 : RotatingLogger) : RotatingLogger → Prop :=
| rl_evolves_refl : rl_evolves rl0 rl0
| rl_evolves_SetLevel rl level :
    rl_evolves rl0 rl → rl_evolves rl0 (RotatingLogger_SetLevel rl level)
| rl_evolves_SetOutput rl w :
    rl_evolves rl0 rl → rl_evolves rl0 (RotatingLogger_SetOutput rl w).

(** The context with one more value. *)
Definition context_WithValue (c : Context) (key : string) (val : any) : Context :=
  {| ctx_values := <[key := val]> (ctx_values c); ctx_span := ctx_span c |}.

(** ** Vocabulary of the statements *)

(** The record a logger [l] builds for an event at level [lvl]. *)
Definition record_of (l : zerolog_Logger) (lvl : zLevel)
    (fields : list (string * string)) (msg : string) : Line :=
  {| ln_writer := zw l; ln_level := lvl; ln_context := zcontext l;
     ln_fields := fields; ln_message := msg |}.

(** What one event of [l] at level [lvl] adds to the output: its record, if
    the level passes the filter and the destination takes the write. *)
Definition new_output (w : World) (l : zerolog_Logger) (lvl : zLevel)
    (fields : list (string * string)) (msg : string) : list (Writer * Line) :=
  if should l lvl && negb (broken w (lw_out (zw l)))
  then [(lw_out (zw l), record_of l lvl fields msg)]
  else [].

(** A call produces output when the destinations hold more after it. *)
Definition produces_output {A} (m : Go A) (w : World) : Prop :=
  written (final (m w)) ≠ written w.

(** The fields a context-aware call attaches, in the order of the loop. *)
Definition attached `{Fmt} (fields : option (gmap string any)) : list (string * string) :=
  (λ kv, (kv.1, Sprintf "%v" [kv.2])) <$> from_option map_to_list [] fields.

(** The logger's stored level and the filter of its engine agree. *)
Definition consistent (zl : ZLogger) : Prop :=
  zlevel (zl_logger zl) = toZerologLevel (zl_level zl).



(** The world after the engine handled one event of [l] at level [lvl]: a
    filtered event changes nothing, a failed write leaves a line on standard
    error, a successful one adds the record to the destination. *)
Definition after_event (w : World) (l : zerolog_Logger) (lvl : zLevel)
    (fields : list (string * string)) (msg : string) : World :=
  if should l lvl then
    if broken w (lw_out (zw l))
    then set_stderr (λ x, x ++ ["zerolog: could not write event: write failed"]) w
    else set_written (λ x, x ++ [(lw_out (zw l), record_of l lvl fields msg)]) w
  else w.

(** How a call of a severity ends: the Fatal ones end the process. *)
Definition outcome (s : Severity) (w : World) : result () :=
  match s with
  | Fatal => Exit 1 w
  | _ => Ret () w
  end.

(** The mapping [getOtelFields] returns for a context (it reads the context
    only, so any world gives the same). *)
Definition otel_fields (zl : ZLogger) (ctx : option Context)
  : option (gmap string any) :=
  match ZLogger_getOtelFields zl ctx empty_world with
  | Ret fields _ => fields
  | _ => None
  end.

(** The calls a context-aware call of severity [s] with message [msg] makes
    on the span [sp]. *)
Definition span_annotation (s : Severity) (sp : Span) (msg : string)
  : list (nat * SpanCall) :=
  match s with
  | Error =>
      [(span_ref sp, AddEvent "log" [("message", msg); ("level", level_tag s)]);
       (span_ref sp, SetStatus codes_Error msg)]
  | Fatal => []
  | _ => [(span_ref sp, AddEvent "log" [("message", msg); ("level", level_tag s)])]
  end.

(** The world after the span of the context, if valid, got its calls. *)
Definition annotate (s : Severity) (ctx : option Context) (msg : string) (w : World)
  : World :=
  let span := trace_SpanFromContext ctx in
  if SpanContext_IsValid (span_ctx span)
  then set_span_calls (λ l, l ++ span_annotation s span msg) w
  else w.

(** A context that carries a request id and a valid, sampled span, and a
    world whose destinations all reject writes, for running the model. *)
Definition example_span : Span :=
  {| span_ref := 7%nat;
     span_ctx := {| sc_traceID := replicate 15 Byte.x00 ++ [Byte.x01];
                    sc_spanID := replicate 7 Byte.x00 ++ [Byte.x02];
                    sc_traceFlags := Byte.x01 |} |}.

Definition example_ctx : Context :=
  {| ctx_values := {[ ReqIDKey := VString "r-1" ]}; ctx_span := Some example_span |}.

Definition broken_world : World :=
  {| written := []; stderr := []; broken := λ _, true;
     span_calls := []; rotations := []; heap := ∅ |}.

(** * Properties *)

(** ** The level mapper *)

Lemma toZerologLevel_hlevel (s : Severity) : toZerologLevel (hlevel s) = event_level s.
Proof. by destruct s. Qed.

Lemma toZerologLevel_total (level : Level) : toZerologLevel level ∈ engine_levels.
Proof.
  unfold toZerologLevel, engine_levels.
  repeat destruct (decide _); repeat constructor.
Qed.

(** C2, as the specification states it, fails: the round trip of Notice does
    not give Warn. *)
Lemma roundtrip_Notice_is_not_Warn :
  ¬ (fromZerologLevel (toZerologLevel LevelNotice) = LevelWarn
     ∧ fromZerologLevel (toZerologLevel LevelNotice) ≠ LevelNotice).
Proof. intros [H _]. vm_compute in H. discriminate. Qed.

(** C2 (amended): mapping Notice to the engine and back gives Notice again;
    the level the round trip loses is Warn, which also comes back as Notice;
    each of the five other levels comes back as itself. *)
Theorem roundtrip_collapses_Warn_to_Notice :
  fromZerologLevel (toZerologLevel LevelNotice) = LevelNotice
  ∧ fromZerologLevel (toZerologLevel LevelWarn) = LevelNotice
  ∧ Forall (λ s, fromZerologLevel (toZerologLevel (hlevel s)) = hlevel s)
           [Trace; Debug; Info; Notice; Error; Fatal].
Proof. split_and!; [done | done |]. by repeat constructor. Qed.

(** ** The engine *)

Ltac run := unfold mbind, mret, Go_bind, Go_ret, os_Exit, panic in *.

Lemma written_after_event w l lvl fields msg :
  written (after_event w l lvl fields msg) = written w ++ new_output w l lvl fields msg.
Proof.
  unfold after_event, new_output.
  destruct (should l lvl), (broken w (lw_out (zw l))); simpl;
    by rewrite ?app_nil_r.
Qed.

Lemma span_calls_after_event w l lvl fields msg :
  span_calls (after_event w l lvl fields msg) = span_calls w.
Proof.
  unfold after_event.
  by destruct (should l lvl), (broken w (lw_out (zw l))).
Qed.

Section Engine.
Context `{Fmt}.

Lemma range_Str_nil_event fields : range_Str fields None = None.
Proof.
  unfold range_Str. generalize (from_option map_to_list [] fields).
  intros l. by induction l.
Qed.

Lemma range_Str_event fields ev :
  range_Str fields (Some ev)
  = Some {| ev_w := ev_w ev; ev_level := ev_level ev; ev_context := ev_context ev;
            ev_fields := ev_fields ev ++ attached fields; ev_done := ev_done ev |}.
Proof.
  unfold range_Str, attached.
  generalize (from_option map_to_list [] fields). intros l.
  revert ev. induction l as [|kv l IH]; intros ev; simpl.
  - rewrite app_nil_r. by destruct ev.
  - rewrite IH. simpl. by rewrite <- app_assoc.
Qed.

(** One event from creation to [Msg]: the fields of the loop, the message,
    and the [done] hook of the level. *)
Lemma event_run (l : zerolog_Logger) lvl done fields msg w :
  (e ← newEvent l lvl done; Event_Msg (range_Str fields e) msg) w
  = match done with
    | Some code => Exit code (after_event w l lvl (attached fields) msg)
    | None => Ret () (after_event w l lvl (attached fields) msg)
    end.
Proof.
  unfold newEvent, after_event. run.
  destruct (should l lvl) eqn:Hs.
  - simpl. rewrite range_Str_event. unfold Event_Msg, Writer_Write, Fprintf_stderr. run.
    simpl. destruct (broken w (lw_out (zw l))); by destruct done.
  - destruct done; [done|]. simpl. by rewrite range_Str_nil_event.
Qed.

Lemma Event_Msgf_Msg e format v w :
  Event_Msgf e format v w = Event_Msg e (Sprintf format v) w.
Proof. by destruct e. Qed.

End Engine.

(** ** The calls of the facade, as functions of the world *)

Lemma bind_ext {A B} (m : Go A) (f g : A → Go B) w :
  (∀ a w', f a w' = g a w') → (m ≫= f) w = (m ≫= g) w.
Proof. intros Hfg. run. by destruct (m w). Qed.

Lemma set_span_calls_app l1 l2 w :
  set_span_calls (λ l, l ++ l2) (set_span_calls (λ l, l ++ l1) w)
  = set_span_calls (λ l, l ++ (l1 ++ l2)) w.
Proof. unfold set_span_calls. simpl. by rewrite <- app_assoc. Qed.

Section Facade.
Context `{Fmt}.

Lemma plain_run s zl v w :
  ZLogger_plain s zl v w
  = outcome s (after_event w (zl_logger zl) (event_level s) [] (Sprint v)).
Proof.
  destruct s; simpl;
    [ exact (event_run (zl_logger zl) TraceLevel None None (Sprint v) w)
    | exact (event_run (zl_logger zl) DebugLevel None None (Sprint v) w)
    | exact (event_run (zl_logger zl) InfoLevel None None (Sprint v) w)
    | exact (event_run (zl_logger zl) WarnLevel None None (Sprint v) w)
    | exact (event_run (zl_logger zl) WarnLevel None None (Sprint v) w)
    | exact (event_run (zl_logger zl) ErrorLevel None None (Sprint v) w)
    | exact (event_run (zl_logger zl) FatalLevel (Some 1) None (Sprint v) w) ].
Qed.

Lemma formatted_run s zl format v w :
  ZLogger_formatted s zl format v w
  = outcome s (after_event w (zl_logger zl) (event_level s) [] (Sprintf format v)).
Proof.
  transitivity
    ((e ← newEvent (zl_logger zl) (event_level s)
                   (match s with Fatal => Some 1 | _ => None end);
      Event_Msg (range_Str None e) (Sprintf format v)) w).
  - destruct s; simpl; apply bind_ext; intros; apply Event_Msgf_Msg.
  - rewrite event_run. by destruct s.
Qed.

Lemma getOtelFields_run zl ctx w :
  ZLogger_getOtelFields zl ctx w = Ret (otel_fields zl ctx) w.
Proof.
  unfold otel_fields, ZLogger_getOtelFields.
  destruct ctx as [c|]; [|done].
  unfold Context_Value. run. reflexivity.
Qed.

Lemma ctx_run s zl ctx format v w :
  ZLogger_ctx s zl ctx format v w
  = let msg := Sprintf format v in
    let w' := after_event w (zl_logger zl) (event_level s)
                          (attached (otel_fields zl ctx)) msg in
    match s with
    | Fatal => Exit 1 w'
    | _ => Ret () (annotate s ctx msg w')
    end.
Proof.
  assert (Hstep : ∀ lvl done (k : Go ()),
    (fields ← ZLogger_getOtelFields zl ctx;
     logEvt ← newEvent (zl_logger zl) lvl done;
     Event_Msg (range_Str fields logEvt) (Sprintf format v);; k) w
    = match done with
      | Some code =>
          Exit code (after_event w (zl_logger zl) lvl
                                 (attached (otel_fields zl ctx)) (Sprintf format v))
      | None =>
          k (after_event w (zl_logger zl) lvl
                         (attached (otel_fields zl ctx)) (Sprintf format v))
      end).
  { intros lvl done k.
    pose proof (event_run (zl_logger zl) lvl done (otel_fields zl ctx)
                          (Sprintf format v) w) as He.
    pose proof (getOtelFields_run zl ctx w) as Hf.
    run. rewrite Hf.
    destruct (newEvent (zl_logger zl) lvl done w) as [e w1|code w1|w1];
      destruct done; simpl in *; try congruence; by rewrite He. }
  assert (Hf : ∀ lvl done (k : Go ()),
    (fields ← ZLogger_getOtelFields zl ctx;
     logEvt ← newEvent (zl_logger zl) lvl done;
     Event_Msgf (range_Str fields logEvt) format v;; k) w
    = (fields ← ZLogger_getOtelFields zl ctx;
       logEvt ← newEvent (zl_logger zl) lvl done;
       Event_Msg (range_Str fields logEvt) (Sprintf format v);; k) w).
  { intros lvl done k. apply bind_ext. intros fields w1. apply bind_ext.
    intros e w2. run. by rewrite Event_Msgf_Msg. }
  unfold annotate.
  destruct s; simpl;
    unfold ZLogger_CtxTracef, ZLogger_CtxDebugf, ZLogger_CtxInfof, ZLogger_CtxNoticef,
      ZLogger_CtxWarnf, ZLogger_CtxErrorf, ZLogger_CtxFatalf,
      Logger_Trace, Logger_Debug, Logger_Info, Logger_Warn, Logger_Error, Logger_Fatal;
    rewrite ?Hf, Hstep;
    try reflexivity;
    destruct (SpanContext_IsValid (span_ctx (trace_SpanFromContext ctx))); try reflexivity.
  unfold Span_AddEvent, Span_SetStatus. run. by rewrite set_span_calls_app.
Qed.

End Facade.

(** ** C1: which calls are emitted *)

Lemma final_outcome s w : final (outcome s w) = w.
Proof. by destruct s. Qed.

Lemma written_annotate s ctx msg w : written (annotate s ctx msg w) = written w.
Proof.
  unfold annotate.
  by destruct (SpanContext_IsValid (span_ctx (trace_SpanFromContext ctx))).
Qed.

Lemma after_event_produces w l lvl fields msg :
  broken w (lw_out (zw l)) = false →
  written (after_event w l lvl fields msg) ≠ written w ↔ should l lvl = true.
Proof.
  intros Hb. rewrite written_after_event. unfold new_output. rewrite Hb.
  destruct (should l lvl); simpl.
  - split; [done|]. intros _ Heq.
    apply (f_equal length) in Heq. rewrite length_app in Heq. simpl in Heq. lia.
  - rewrite app_nil_r. split; [done | discriminate].
Qed.

(** The filter in terms of the two seven-level severities. *)
Lemma should_severity (l : zerolog_Logger) (L M : Severity) :
  zlevel l = toZerologLevel (hlevel M) →
  should l (event_level L) = true ↔ hlevel M ≤ hlevel L ∨ (L = Notice ∧ M = Warn).
Proof.
  intros Hl. unfold should. rewrite Hl, toZerologLevel_hlevel.
  rewrite negb_true_iff, bool_decide_eq_false.
  destruct L, M; vm_compute; split; intros Hx;
    first [ by left | by right | exfalso; destruct Hx as [Hx|Hx]; by try destruct Hx
          | (exfalso; apply Hx; by (left + right))
          | (intros [?|?]; done) ].
Qed.

Lemma New_level (out : Writer) (level : Level) :
  zl_level (New [WithOutput out; WithLevel level]) = level
  ∧ consistent (New [WithOutput out; WithLevel level])
  ∧ lw_out (zw (zl_logger (New [WithOutput out; WithLevel level]))) = out.
Proof. done. Qed.

Lemma SetLevel_level (zl : ZLogger) (level : Level) :
  zl_level (ZLogger_SetLevel zl level) = level ∧ consistent (ZLogger_SetLevel zl level).
Proof. done. Qed.

(** C1, as the specification states it, fails: with the minimum level Warn a
    Notice call is written although Notice is below Warn. *)
Lemma Notice_below_Warn_is_emitted :
  ¬ (∀ L M : Severity,
       produces_output
         (ZLogger_plain (H := plain_fmt) L
            (New [WithOutput (Buffer 0); WithLevel (hlevel M)]) [VString "x"])
         empty_world
       ↔ hlevel M ≤ hlevel L).
Proof.
  intros Hclaim. destruct (Hclaim Notice Warn) as [Hle _].
  assert (Hlt : ¬ hlevel Warn ≤ hlevel Notice) by (vm_compute; tauto).
  apply Hlt, Hle. unfold produces_output. vm_compute. discriminate.
Qed.

(** C1 (amended): on a logger whose minimum level is M (stored level M,
    engine filter consistent with it) and whose destination takes writes, a
    plain, formatted or context-aware call at level L produces output if and
    only if the engine level of L is at or above the engine level of M, that
    is, if and only if L is at or above M, or L is Notice and M is Warn (a
    Notice call is a Warn event for the engine); otherwise it produces no
    output. *)
Theorem emitted_iff_at_or_above_engine_minimum `{Fmt}
    (L M : Severity) (zl : ZLogger) (w : World)
    (ctx : option Context) (format : string) (v : list any) :
  zl_level zl = hlevel M →
  consistent zl →
  broken w (lw_out (zw (zl_logger zl))) = false →
  (produces_output (ZLogger_plain L zl v) w
     ↔ hlevel M ≤ hlevel L ∨ (L = Notice ∧ M = Warn))
  ∧ (produces_output (ZLogger_formatted L zl format v) w
     ↔ hlevel M ≤ hlevel L ∨ (L = Notice ∧ M = Warn))
  ∧ (produces_output (ZLogger_ctx L zl ctx format v) w
     ↔ hlevel M ≤ hlevel L ∨ (L = Notice ∧ M = Warn))
  ∧ (should (zl_logger zl) (event_level L) = true
     ↔ toZerologLevel (hlevel M) ≤ toZerologLevel (hlevel L)).
Proof.
  intros HM Hc Hb. unfold consistent in Hc. rewrite HM in Hc.
  unfold produces_output.
  rewrite plain_run, formatted_run, ctx_run, !final_outcome. simpl.
  split_and!.
  - by rewrite after_event_produces, should_severity.
  - by rewrite after_event_produces, should_severity.
  - rewrite <- (should_severity (zl_logger zl) L M Hc).
    rewrite <- (after_event_produces w (zl_logger zl) (event_level L)
                  (attached (otel_fields zl ctx)) (Sprintf format v) Hb).
    destruct L; simpl; by rewrite ?written_annotate.
  - unfold should. rewrite Hc, !toZerologLevel_hlevel.
    rewrite negb_true_iff, bool_decide_eq_false.
    destruct L, M; vm_compute; split; intros Hx; try done;
      first [ (exfalso; apply Hx; by (left + right)) | (intros [?|?]; done) ].
Qed.

Lemma emitted_iff_at_or_above_engine_minimum_witness :
  let zl := New [WithOutput (Buffer 0); WithLevel (hlevel Warn)] in
  zl_level zl = hlevel Warn
  ∧ consistent zl
  ∧ broken empty_world (lw_out (zw (zl_logger zl))) = false
  ∧ (produces_output (ZLogger_plain (H := plain_fmt) Notice zl [VString "x"]) empty_world
     ↔ hlevel Warn ≤ hlevel Notice ∨ (Notice = Notice ∧ Warn = Warn)).
Proof.
  split_and!; [reflexivity | reflexivity | reflexivity |].
  apply (@emitted_iff_at_or_above_engine_minimum plain_fmt Notice Warn
           (New [WithOutput (Buffer 0); WithLevel (hlevel Warn)]) empty_world
           None "" [VString "x"]); reflexivity.
Defined.

(** ** C4: the mapper is total and collapses Notice to Warn *)

(** C4: [toZerologLevel] is a function defined on every input (each of its
    values is one of the engine's levels, the seven levels going to the level
    their methods use); Notice has no level of its own in the engine and goes
    where its more severe neighbour Warn goes, not where its less severe
    neighbour Info goes; and the Notice, Noticef and CtxNoticef calls hand the
    engine an event at the Warn level. *)
Theorem Notice_collapses_to_Warn `{Fmt}
    (zl : ZLogger) (ctx : option Context) (format : string) (v : list any) (w : World) :
  (∀ level : Level, toZerologLevel level ∈ engine_levels)
  ∧ Forall (λ s, toZerologLevel (hlevel s) = event_level s) all_severities
  ∧ toZerologLevel LevelNotice = WarnLevel
  ∧ LevelWarn = LevelNotice + 1
  ∧ toZerologLevel LevelNotice = toZerologLevel (LevelNotice + 1)
  ∧ toZerologLevel LevelNotice ≠ toZerologLevel (LevelNotice - 1)
  ∧ ZLogger_Notice zl v w
    = Ret () (after_event w (zl_logger zl) WarnLevel [] (Sprint v))
  ∧ ZLogger_Noticef zl format v w
    = Ret () (after_event w (zl_logger zl) WarnLevel [] (Sprintf format v))
  ∧ written (final (ZLogger_CtxNoticef zl ctx format v w))
    = written w ++ new_output w (zl_logger zl) WarnLevel
                     (attached (otel_fields zl ctx)) (Sprintf format v).
Proof.
  split_and!; try done.
  - apply toZerologLevel_total.
  - by repeat constructor.
  - exact (plain_run Notice zl v w).
  - exact (formatted_run Notice zl format v w).
  - pose proof (ctx_run Notice zl ctx format v w) as Hrun. simpl in Hrun.
    rewrite Hrun. simpl. by rewrite written_annotate, written_after_event.
Qed.

(** ** C3: what [SetOutput] keeps *)

(** On a [ZLogger], [SetOutput] keeps the stored format and level, builds
    the engine for the new destination in the shape the format asks for, and
    filters at the stored level. *)
Lemma ZLogger_SetOutput_keeps_format_and_level (zl : ZLogger) (w : Writer) :
  zl_format (ZLogger_SetOutput zl w) = zl_format zl
  ∧ zl_level (ZLogger_SetOutput zl w) = zl_level zl
  ∧ consistent (ZLogger_SetOutput zl w)
  ∧ lw_out (zw (zl_logger (ZLogger_SetOutput zl w))) = w
  ∧ lw_console (zw (zl_logger (ZLogger_SetOutput zl w)))
    = negb (bool_decide (zl_format zl = JSONFormat)).
Proof.
  unfold ZLogger_SetOutput, consistent.
  destruct (decide (zl_format zl = JSONFormat)) as [Hj|Hj];
    [|destruct (decide (zl_format zl = ConsoleFormat))]; simpl;
    rewrite ?(bool_decide_eq_true_2 _ Hj), ?(bool_decide_eq_false_2 _ Hj); done.
Qed.

(** [New] builds the engine in the shape of the configured format. *)
Lemma New_shape (out : Writer) (format : FormatType) :
  lw_console (zw (zl_logger (New [WithOutput out; WithFormat format])))
  = negb (bool_decide (format = JSONFormat))
  ∧ zl_format (New [WithOutput out; WithFormat format]) = format.
Proof.
  unfold New. simpl.
  destruct (decide (format = JSONFormat)) as [Hj|Hj];
    [|destruct (decide (format = ConsoleFormat))]; simpl;
    rewrite ?(bool_decide_eq_true_2 _ Hj), ?(bool_decide_eq_false_2 _ Hj); done.
Qed.

(** A console logger is built with the RFC3339 layout by [New] and with the
    DateTime layout by [SetOutput]. *)
Lemma ZLogger_SetOutput_console_layout (out w : Writer) :
  zw (zl_logger (New [WithOutput out; WithFormat ConsoleFormat]))
  = ConsoleWriter out RFC3339
  ∧ zw (zl_logger (ZLogger_SetOutput (New [WithOutput out; WithFormat ConsoleFormat]) w))
    = ConsoleWriter w DateTime.
Proof. done. Qed.

(** C3 fails on [RotatingLogger]: a rotating logger built for the JSON format
    is a console logger after [SetOutput]; only its level is carried over. *)
Theorem RotatingLogger_SetOutput_loses_format (config : RotateConfig) (w : Writer) :
  let rl := NewRotatingLoggerWithFormat config JSONFormat in
  let rl' := RotatingLogger_SetOutput rl w in
  zl_format (rl_baseLogger rl) = JSONFormat
  ∧ zw (zl_logger (rl_baseLogger rl)) = JSONWriter (Lumberjack (lumberjackLogger config))
  ∧ zl_format (rl_baseLogger rl') = ConsoleFormat
  ∧ zw (zl_logger (rl_baseLogger rl')) = ConsoleWriter w RFC3339
  ∧ zl_level (rl_baseLogger rl') = zl_level (rl_baseLogger rl)
  ∧ zl_format (rl_baseLogger rl') ≠ zl_format (rl_baseLogger rl).
Proof. done. Qed.

(** ** C5: the context-field extractor *)


Ltac lookup_fields :=
  repeat first [ rewrite lookup_insert_eq | rewrite lookup_insert_ne by done
               | rewrite lookup_empty ];
  done.



(** ** C6: context-aware calls and the span *)

Lemma span_calls_annotate s ctx msg w :
  span_calls (annotate s ctx msg w)
  = span_calls w
    ++ (if SpanContext_IsValid (span_ctx (trace_SpanFromContext ctx))
        then span_annotation s (trace_SpanFromContext ctx) msg else []).
Proof.
  unfold annotate.
  destruct (SpanContext_IsValid (span_ctx (trace_SpanFromContext ctx))); simpl;
    by rewrite ?app_nil_r.
Qed.

(** The fields attached to the record are the extracted ones, each once,
    with its value formatted by [%v]. *)
Lemma attached_fields `{Fmt} (fields : gmap string any) (k s : string) :
  (k, s) ∈ attached (Some fields)
  ↔ ∃ x, fields !! k = Some x ∧ s = Sprintf "%v" [x].
Proof.
  unfold attached. simpl. rewrite list_elem_of_fmap. split.
  - intros [[k' x] [Heq Hin]]. simpl in Heq. injection Heq as -> ->.
    apply elem_of_map_to_list in Hin. eauto.
  - intros [x [Hx ->]]. exists (k, x). split; [done|].
    by apply elem_of_map_to_list.
Qed.

(** For the six severities below Fatal a context-aware call does what C6
    says: the record carries the extracted fields, the valid span gets a
    [log] event with the message and the severity, and the status of the span
    is set to Error by the Error call only. *)
Lemma ctx_call_annotates_span `{Fmt} (s : Severity) zl ctx format v w :
  s ≠ Fatal →
  SpanContext_IsValid (span_ctx (trace_SpanFromContext ctx)) = true →
  ∃ w', ZLogger_ctx s zl ctx format v w = Ret () w'
    ∧ written w' = written w ++ new_output w (zl_logger zl) (event_level s)
                                  (attached (otel_fields zl ctx)) (Sprintf format v)
    ∧ span_calls w'
      = span_calls w
        ++ (span_ref (trace_SpanFromContext ctx),
            AddEvent "log" [("message", Sprintf format v); ("level", level_tag s)])
        :: match s with
           | Error => [(span_ref (trace_SpanFromContext ctx),
                        SetStatus codes_Error (Sprintf format v))]
           | _ => []
           end.
Proof.
  intros Hs Hvalid. rewrite ctx_run. cbn zeta.
  eexists. split; [by destruct s|].
  rewrite written_annotate, written_after_event, span_calls_annotate,
    span_calls_after_event, Hvalid.
  split; [done|]. by destruct s.
Qed.

(** C6 fails for Fatal: [CtxFatalf] ends the process in the engine (the
    Fatal event calls [os.Exit(1)] once the record is written, or at once
    when the level is filtered), so the lines that add the event to the span
    and set its status are never reached, whatever the context. *)
Theorem CtxFatalf_exits_before_the_span `{Fmt} (zl : ZLogger) (ctx : option Context)
    (format : string) (v : list any) (w : World) :
  ∃ w', ZLogger_CtxFatalf zl ctx format v w = Exit 1 w'
    ∧ span_calls w' = span_calls w
    ∧ written w' = written w ++ new_output w (zl_logger zl) FatalLevel
                                  (attached (otel_fields zl ctx)) (Sprintf format v).
Proof.
  pose proof (ctx_run Fatal zl ctx format v w) as Hrun. simpl in Hrun.
  eexists. split; [exact Hrun|].
  by rewrite span_calls_after_event, written_after_event.
Qed.

(** The same on a context with a valid span: the record is written with the
    three trace fields and the request id, and the span hears nothing. *)
Example CtxFatalf_on_a_valid_span :
  SpanContext_IsValid (span_ctx (trace_SpanFromContext (Some example_ctx))) = true
  ∧ returns (ZLogger_CtxFatalf (H := plain_fmt) (New [WithOutput (Buffer 0)])
               (Some example_ctx) "boom" [] empty_world) = false
  ∧ span_calls (final (ZLogger_CtxFatalf (H := plain_fmt) (New [WithOutput (Buffer 0)])
                         (Some example_ctx) "boom" [] empty_world)) = []
  ∧ length (written (final (ZLogger_CtxFatalf (H := plain_fmt) (New [WithOutput (Buffer 0)])
                              (Some example_ctx) "boom" [] empty_world))) = 1%nat
  ∧ span_calls (final (ZLogger_CtxErrorf (H := plain_fmt) (New [WithOutput (Buffer 0)])
                         (Some example_ctx) "boom" [] empty_world))
    = [(7%nat, AddEvent "log" [("message", "boom"); ("level", "error")]);
       (7%nat, SetStatus codes_Error "boom")].
Proof. by vm_compute. Qed.

(** ** C7: the one call that reports a failure *)

Lemma RotatingLogger_calls_delegate `{Fmt} (s : Severity) (rl : RotatingLogger)
    ctx format v :
  RotatingLogger_plain s rl v = ZLogger_plain s (rl_baseLogger rl) v
  ∧ RotatingLogger_formatted s rl format v
    = ZLogger_formatted s (rl_baseLogger rl) format v
  ∧ RotatingLogger_ctx s rl ctx format v = ZLogger_ctx s (rl_baseLogger rl) ctx format v.
Proof. by destruct s. Qed.

Lemma NewRotatingLogger_destination (config : RotateConfig) (format : FormatType) :
  lw_out (zw (zl_logger (rl_baseLogger (NewRotatingLoggerWithFormat config format))))
  = rl_writer (NewRotatingLoggerWithFormat config format)
  ∧ rl_writer (NewRotatingLoggerWithFormat config format)
    = Lumberjack (lumberjackLogger config)
  ∧ NewRotatingLogger config = NewRotatingLoggerWithFormat config ConsoleFormat.
Proof.
  split_and!; try done.
  unfold NewRotatingLoggerWithFormat, New. simpl.
  by repeat destruct (decide _).
Qed.

Lemma written_after_event_broken w l lvl fields msg :
  broken w (lw_out (zw l)) = true →
  written (after_event w l lvl fields msg) = written w.
Proof.
  intros Hb. rewrite written_after_event. unfold new_output.
  rewrite Hb, andb_false_r. apply app_nil_r.
Qed.

(** Rotation of a working destination returns nil and rotates the file. *)
Lemma Rotate_succeeds (config : RotateConfig) (format : FormatType) (w : World) :
  broken w (Lumberjack (lumberjackLogger config)) = false →
  RotatingLogger_Rotate (NewRotatingLoggerWithFormat config format) w
  = Ret None (set_rotations (λ l, l ++ [Filename config]) w).
Proof.
  intros Hb. unfold RotatingLogger_Rotate, lumberjack_Rotate. simpl. by rewrite Hb.
Qed.

(** C7: on a rotating logger whose destination fails, [Rotate] returns an
    error that is not nil (and rotates nothing), while each log call, plain,
    formatted or context-aware, ends as on a working destination: it returns
    no value (the Fatal ones end the process, as they always do), it does not
    panic, and the failed write leaves nothing in the output.  [Rotate] is
    the only one of these operations whose type has an error result. *)
Theorem only_Rotate_reports_failure `{Fmt}
    (config : RotateConfig) (format0 : FormatType) (w : World)
    (s : Severity) (ctx : option Context) (format : string) (v : list any) :
  let rl := NewRotatingLoggerWithFormat config format0 in
  broken w (rl_writer rl) = true →
  (∃ e : string, RotatingLogger_Rotate rl w = Ret (Some e) w)
  ∧ (∃ w', RotatingLogger_plain s rl v w = outcome s w' ∧ written w' = written w)
  ∧ (∃ w', RotatingLogger_formatted s rl format v w = outcome s w'
           ∧ written w' = written w)
  ∧ (∃ w', RotatingLogger_ctx s rl ctx format v w = outcome s w'
           ∧ written w' = written w).
Proof.
  intros rl Hb.
  destruct (RotatingLogger_calls_delegate s rl ctx format v) as (-> & -> & ->).
  destruct (NewRotatingLogger_destination config format0) as (Hout & Hw & _).
  fold rl in Hout, Hw. rewrite <- Hout in Hb.
  split_and!.
  - unfold RotatingLogger_Rotate, lumberjack_Rotate. rewrite Hw.
    rewrite Hout, Hw in Hb. rewrite Hb. eauto.
  - rewrite plain_run. eexists. split; [done|]. by apply written_after_event_broken.
  - rewrite formatted_run. eexists. split; [done|].
    by apply written_after_event_broken.
  - rewrite ctx_run. cbn zeta.
    exists (match s with
            | Fatal => after_event w (zl_logger (rl_baseLogger rl)) (event_level s)
                         (attached (otel_fields (rl_baseLogger rl) ctx))
                         (Sprintf format v)
            | _ => annotate s ctx (Sprintf format v)
                     (after_event w (zl_logger (rl_baseLogger rl)) (event_level s)
                        (attached (otel_fields (rl_baseLogger rl) ctx))
                        (Sprintf format v))
            end).
    split; [by destruct s|].
    destruct s; rewrite ?written_annotate; by apply written_after_event_broken.
Qed.

Lemma only_Rotate_reports_failure_witness :
  let rl := NewRotatingLoggerWithFormat
              {| Filename := "/ro/app.log"; MaxSize := 20; MaxBackups := 5;
                 MaxAge := 10; Compress := true; LocalTime := true |} JSONFormat in
  broken broken_world (rl_writer rl) = true
  ∧ (∃ e : string, RotatingLogger_Rotate rl broken_world = Ret (Some e) broken_world)
  ∧ (∃ w', RotatingLogger_plain (H := plain_fmt) Info rl [VString "x"] broken_world
           = outcome Info w' ∧ written w' = written broken_world).
Proof.
  split; [reflexivity|].
  split;
    apply (@only_Rotate_reports_failure plain_fmt
             {| Filename := "/ro/app.log"; MaxSize := 20; MaxBackups := 5;
                MaxAge := 10; Compress := true; LocalTime := true |} JSONFormat
             broken_world Info None "" [VString "x"]);
    reflexivity.
Defined.

(** ** C8: the adapter *)


(** ** C9: the stored level and the filter of the engine *)






(** ** C10: the nil context *)

(** C10: with a nil context the extractor returns the nil map, and the
    context-aware call of each severity does what the formatted call of that
    severity does: it does not panic, it attaches no field, it leaves the
    spans alone, and it writes the record with the message whenever the
    formatted call would. *)
Theorem nil_context_is_safe `{Fmt} (s : Severity) (zl : ZLogger)
    (format : string) (v : list any) (w : World) :
  ZLogger_getOtelFields zl None w = Ret None w
  ∧ ZLogger_ctx s zl None format v w = ZLogger_formatted s zl format v w
  ∧ ZLogger_ctx s zl None format v w
    = outcome s (after_event w (zl_logger zl) (event_level s) [] (Sprintf format v))
  ∧ written (final (ZLogger_ctx s zl None format v w))
    = written w ++ new_output w (zl_logger zl) (event_level s) [] (Sprintf format v)
  ∧ span_calls (final (ZLogger_ctx s zl None format v w)) = span_calls w.
Proof.
  assert (Hrun : ZLogger_ctx s zl None format v w
    = outcome s (after_event w (zl_logger zl) (event_level s) [] (Sprintf format v))).
  { rewrite ctx_run. by destruct s. }
  split_and!; try done.
  - by rewrite formatted_run.
  - by rewrite Hrun, final_outcome, written_after_event.
  - by rewrite Hrun, final_outcome, span_calls_after_event.
Qed.

(** ** The model at work *)

(** TestSetOutputPreservesFormat: a JSON logger still writes JSON records,
    to the new destination, after [SetOutput]. *)
Example SetOutput_preserves_format_test :
  let jsonLogger := New [WithFormat JSONFormat; WithOutput (Buffer 0); WithLevel LevelInfo] in
  let jsonLogger := ZLogger_SetOutput jsonLogger (Buffer 1) in
  written (final (ZLogger_Info (H := plain_fmt) jsonLogger
                    [VString "Test after output change"] empty_world))
  = [(Buffer 1,
      {| ln_writer := JSONWriter (Buffer 1); ln_level := InfoLevel;
         ln_context := [Timestamp; CallerWithSkipFrameCount 3];
         ln_fields := []; ln_message := "Test after output change" |})].
Proof. reflexivity. Qed.

(** The extractor on a context with a request id and a valid, sampled span. *)
Example getOtelFields_on_a_valid_span :
  ZLogger_getOtelFields (New []) (Some example_ctx) empty_world
  = Ret (Some (<["trace_flags" := VString "01"]>
                 (<["span_id" := VString "0000000000000002"]>
                    (<["trace_id" := VString "00000000000000000000000000000001"]>
                       {[ "request_id" := VString "r-1" ]}))))
        empty_world.
Proof. reflexivity. Qed.

(** The default level is Info: a Debug call writes nothing, a Notice call
    writes a record at the Warn level. *)
Example default_level_filters_Debug :
  written (final (ZLogger_Debug (H := plain_fmt) (New [WithOutput (Buffer 0)])
                    [VString "d"] empty_world)) = []
  ∧ (ln_level ∘ snd)
      <$> written (final (ZLogger_Notice (H := plain_fmt) (New [WithOutput (Buffer 0)])
                            [VString "n"] empty_world))
    = [WarnLevel].
Proof. split; reflexivity. Qed.

(** The adapter and the caller share one logger: a level set through the
    adapter is the level the caller reads through its own pointer, and it
    filters the calls that follow.  A call through a nil pointer panics. *)
Example adapter_shares_the_logger :
  let program : Go Level :=
    p ← alloc (New [WithOutput (Buffer 0)]);
    let h := NewHlogAdapter p in
    HlogAdapter_SetLevel h LevelError;;
    @HlogAdapter_Info plain_fmt h [VString "dropped"];;
    @HlogAdapter_Error plain_fmt h [VString "kept"];;
    method p (λ zl, mret (zl_level zl)) in
  returns (program empty_world) = true
  ∧ (ln_message ∘ snd) <$> written (final (program empty_world)) = ["kept"]
  ∧ zl_level <$> (heap (final (program empty_world)) !! 0%nat) = Some LevelError
  ∧ @HlogAdapter_Info plain_fmt (NewHlogAdapter 5%nat) [] empty_world
    = Panic empty_world.
Proof. by vm_compute. Qed.

(** * Further properties of the code *)

(** ** The level mapper on all of its inputs *)

(** X1: on the seven levels [toZerologLevel] is monotone: a level that is at
    least as severe goes to an engine level that is at least as severe. *)
Theorem toZerologLevel_monotone (a b : Level) :
  LevelTrace ≤ a → a ≤ b → b ≤ LevelFatal →
  toZerologLevel a ≤ toZerologLevel b.
Proof.
  unfold LevelTrace, LevelFatal. intros Ha Hab Hb.
  assert (Hcases : ∀ x : Z, 0 ≤ x ≤ 6 →
            x = 0 ∨ x = 1 ∨ x = 2 ∨ x = 3 ∨ x = 4 ∨ x = 5 ∨ x = 6) by (intros; lia).
  destruct (Hcases a) as [-> | [-> | [-> | [-> | [-> | [-> | ->]]]]]]; [lia|..];
    destruct (Hcases b) as [-> | [-> | [-> | [-> | [-> | [-> | ->]]]]]]; try lia;
    vm_compute; discriminate.
Qed.

Lemma toZerologLevel_monotone_witness :
  LevelTrace ≤ LevelNotice ∧ LevelNotice ≤ LevelError ∧ LevelError ≤ LevelFatal
  ∧ toZerologLevel LevelNotice ≤ toZerologLevel LevelError.
Proof.
  assert (H1 : LevelTrace ≤ LevelNotice) by (vm_compute; discriminate).
  assert (H2 : LevelNotice ≤ LevelError) by (vm_compute; discriminate).
  assert (H3 : LevelError ≤ LevelFatal) by (vm_compute; discriminate).
  split_and!; [exact H1 | exact H2 | exact H3 |].
  exact (toZerologLevel_monotone LevelNotice LevelError H1 H2 H3).
Defined.

(** X2: a level outside the seven goes to the engine's Info level, so
    [SetLevel] with such a level stores it as it is and filters as
    [SetLevel] with Info does. *)
Theorem unknown_level_filters_as_Info (zl : ZLogger) (level : Level) :
  level < LevelTrace ∨ LevelFatal < level →
  toZerologLevel level = InfoLevel
  ∧ zl_level (ZLogger_SetLevel zl level) = level
  ∧ zl_logger (ZLogger_SetLevel zl level) = zl_logger (ZLogger_SetLevel zl LevelInfo).
Proof.
  unfold LevelTrace, LevelFatal. intros Hout.
  assert (Hinfo : toZerologLevel level = InfoLevel).
  { unfold toZerologLevel, LevelTrace, LevelDebug, LevelInfo, LevelNotice, LevelWarn,
      LevelError, LevelFatal.
    repeat (destruct (decide _) as [?|?]; [lia|]). done. }
  split_and!; [done | done |].
  unfold ZLogger_SetLevel. simpl. by rewrite Hinfo.
Qed.

Lemma unknown_level_filters_as_Info_witness :
  (42 < LevelTrace ∨ LevelFatal < 42)
  ∧ toZerologLevel 42 = InfoLevel
  ∧ zl_level (ZLogger_SetLevel (New []) 42) = 42.
Proof.
  assert (Hout : 42 < LevelTrace ∨ LevelFatal < 42) by (right; reflexivity).
  split; [exact Hout|].
  split; apply (unknown_level_filters_as_Info (New []) 42 Hout).
Defined.

(** X3: from the engine to hlog and back is the identity on the six levels
    the facade uses, and every other engine level (Panic, NoLevel, Disabled,
    any other number) comes back as the engine's Info level. *)
Theorem engine_roundtrip (e : zLevel) :
  toZerologLevel (fromZerologLevel e)
  = if bool_decide (e ∈ engine_levels) then e else InfoLevel.
Proof.
  unfold fromZerologLevel.
  repeat (destruct (decide _) as [-> | ?]; [by vm_compute|]).
  rewrite bool_decide_eq_false_2; [done|].
  unfold engine_levels. rewrite !elem_of_cons, elem_of_nil. intuition.
Qed.

(** X4: [fromZerologLevel] never gives Warn: each of its values is one of
    Trace, Debug, Info, Notice, Error and Fatal. *)
Theorem fromZerologLevel_never_Warn (e : zLevel) :
  fromZerologLevel e ≠ LevelWarn
  ∧ fromZerologLevel e
    ∈ [LevelTrace; LevelDebug; LevelInfo; LevelNotice; LevelError; LevelFatal].
Proof.
  unfold fromZerologLevel.
  repeat (destruct (decide _) as [?|?]; [split; [done | repeat constructor]|]).
  split; [done | repeat constructor].
Qed.

(** ** How the options of [New] compose *)

Lemma apply_options_app (o1 o2 : list Option) (cfg : config) :
  apply_options (o1 ++ o2) cfg = apply_options o2 (apply_options o1 cfg).
Proof. apply foldl_app. Qed.

Lemma New_same_config (o1 o2 : list Option) :
  apply_options o1 default_config = apply_options o2 default_config →
  New o1 = New o2.
Proof. intros Heq. unfold New. by rewrite Heq. Qed.

(** X5: among the options of [New], a later [WithLevel], [WithOutput] or
    [WithFormat] overrides an earlier one of the same kind, options that set
    different fields can be exchanged, and a nil tracer provider is the
    no-op one. *)
Theorem setters_override_and_commute (options : list Option)
    (a b : Level) (o o' : Writer) (f f' : FormatType) (p : TracerProvider) :
  New (options ++ [WithLevel a; WithLevel b]) = New (options ++ [WithLevel b])
  ∧ New (options ++ [WithOutput o; WithOutput o']) = New (options ++ [WithOutput o'])
  ∧ New (options ++ [WithFormat f; WithFormat f']) = New (options ++ [WithFormat f'])
  ∧ New (options ++ [WithLevel a; WithOutput o])
    = New (options ++ [WithOutput o; WithLevel a])
  ∧ New (options ++ [WithLevel a; WithFormat f])
    = New (options ++ [WithFormat f; WithLevel a])
  ∧ New (options ++ [WithOutput o; WithFormat f])
    = New (options ++ [WithFormat f; WithOutput o])
  ∧ New (options ++ [WithTraceProvider (Some p); WithLevel a])
    = New (options ++ [WithLevel a; WithTraceProvider (Some p)])
  ∧ New (options ++ [WithTraceProvider None])
    = New (options ++ [WithTraceProvider (Some NoopTracerProvider)]).
Proof.
  split_and!; apply New_same_config; by rewrite !apply_options_app.
Qed.

(** X6: the enrichers of several [WithZerologOptions] accumulate in the
    order they are given, and it makes no difference where among the setters
    [WithZerologOptions] stands: the enrichers are applied to the logger built
    from the final level, destination and format. *)
Theorem enrichers_accumulate (options : list Option)
    (es es' : list (zerolog_Logger → zerolog_Logger))
    (a : Level) (o : Writer) (f : FormatType) :
  New (options ++ [WithZerologOptions es; WithZerologOptions es'])
  = New (options ++ [WithZerologOptions (es ++ es')])
  ∧ New (options ++ [WithZerologOptions es; WithLevel a; WithOutput o; WithFormat f])
    = New (options ++ [WithLevel a; WithOutput o; WithFormat f; WithZerologOptions es])
  ∧ zl_logger (New [WithLevel a; WithOutput o; WithFormat f; WithZerologOptions (es ++ es')])
    = foldl (λ l enricher, enricher l)
            (foldl (λ l enricher, enricher l)
                   (zl_logger (New [WithLevel a; WithOutput o; WithFormat f])) es) es'.
Proof.
  split_and!.
  - apply New_same_config. rewrite !apply_options_app. simpl.
    unfold WithZerologOptions. simpl. by rewrite <- app_assoc.
  - apply New_same_config. by rewrite !apply_options_app.
  - unfold New. simpl. by rewrite foldl_app.
Qed.

(** X7: [WithRotationAndFormat] is [WithRotation] followed by [WithFormat],
    and a logger built with [WithRotation] writes to the rotating file of the
    configuration. *)
Theorem WithRotationAndFormat_decomposes (options : list Option)
    (rotationConfig : RotateConfig) (format : FormatType) :
  New (options ++ [WithRotationAndFormat rotationConfig format])
  = New (options ++ [WithRotation rotationConfig; WithFormat format])
  ∧ lw_out (zw (zl_logger (New [WithRotation rotationConfig])))
    = Lumberjack (lumberjackLogger rotationConfig)
  ∧ RotatingLogger_GetRotatingWriter (NewRotatingLoggerWithFormat rotationConfig format)
    = Some (lumberjackLogger rotationConfig).
Proof.
  split_and!; [|done|done].
  apply New_same_config. by rewrite !apply_options_app.
Qed.

(** ** How [SetLevel] and [SetOutput] compose *)

Lemma should_after_SetLevel (zl : ZLogger) (level : Level) (s : Severity) :
  should (zl_logger (ZLogger_SetLevel zl level)) (event_level s)
  = bool_decide (toZerologLevel level ≤ event_level s).
Proof.
  unfold should, ZLogger_SetLevel, GlobalLevel. simpl.
  assert (Hs : TraceLevel ≤ event_level s) by (destruct s; vm_compute; discriminate).
  destruct (decide (toZerologLevel level ≤ event_level s)) as [Hle|Hle].
  - rewrite (bool_decide_eq_true_2 _ Hle), bool_decide_eq_false_2; [done|]. lia.
  - rewrite (bool_decide_eq_false_2 _ Hle), bool_decide_eq_true_2; [done|]. lia.
Qed.

(** X8: after [SetLevel] a call is written if and only if its engine level
    is at or above the engine level of the new minimum, and the record it
    writes is the one the logger would have written before: same destination,
    same shape, same context fields (those the enrichers added too).  The
    last of two [SetLevel] calls is the one that counts. *)
Theorem SetLevel_changes_the_filter_only `{Fmt} (zl : ZLogger) (a b : Level)
    (s : Severity) (v : list any) (w : World) :
  written (final (ZLogger_plain s (ZLogger_SetLevel zl b) v w))
  = written w
    ++ (if bool_decide (toZerologLevel b ≤ event_level s)
           && negb (broken w (lw_out (zw (zl_logger zl))))
        then [(lw_out (zw (zl_logger zl)),
               record_of (zl_logger zl) (event_level s) [] (Sprint v))]
        else [])
  ∧ zl_format (ZLogger_SetLevel zl b) = zl_format zl
  ∧ zl_tp (ZLogger_SetLevel zl b) = zl_tp zl
  ∧ ZLogger_SetLevel (ZLogger_SetLevel zl a) b = ZLogger_SetLevel zl b.
Proof.
  split_and!; try done.
  rewrite plain_run, final_outcome, written_after_event. unfold new_output.
  by rewrite should_after_SetLevel.
Qed.

(** X9: [SetLevel] and [SetOutput] can be called in either order with the
    same result, and the last of two [SetOutput] calls is the one that
    counts. *)
Theorem SetLevel_SetOutput_commute (zl : ZLogger) (level : Level) (w w' : Writer) :
  ZLogger_SetOutput (ZLogger_SetLevel zl level) w
  = ZLogger_SetLevel (ZLogger_SetOutput zl w) level
  ∧ ZLogger_SetOutput (ZLogger_SetOutput zl w) w' = ZLogger_SetOutput zl w'.
Proof.
  unfold ZLogger_SetOutput, ZLogger_SetLevel. simpl.
  split; repeat destruct (decide _); done.
Qed.

(** X10: [SetOutput] builds the engine anew from the stored level and format:
    two loggers with the same stored fields become the same logger, whatever
    their engines were, and the context of the new engine is the timestamp
    and the caller only, so what the enrichers of [New] added is gone. *)
Theorem SetOutput_forgets_the_engine (zl zl' : ZLogger) (w : Writer) :
  zl_level zl = zl_level zl' →
  zl_format zl = zl_format zl' →
  zl_tp zl = zl_tp zl' →
  ZLogger_SetOutput zl w = ZLogger_SetOutput zl' w
  ∧ zcontext (zl_logger (ZLogger_SetOutput zl w)) = [Timestamp; CallerWithSkipFrameCount 3].
Proof.
  intros Hl Hf Ht. unfold ZLogger_SetOutput. rewrite Hl, Hf, Ht.
  split; [done|]. by repeat destruct (decide _).
Qed.

Lemma SetOutput_forgets_the_engine_witness :
  let enricher := λ l : zerolog_Logger,
    {| zw := zw l; zlevel := zlevel l;
       zcontext := zcontext l ++ [StrField "service" "rotation-example"] |} in
  let zl := New [WithFormat JSONFormat; WithZerologOptions [enricher]] in
  let zl' := New [WithFormat JSONFormat] in
  zl_level zl = zl_level zl' ∧ zl_format zl = zl_format zl' ∧ zl_tp zl = zl_tp zl'
  ∧ zcontext (zl_logger zl)
    = [Timestamp; CallerWithSkipFrameCount 3; StrField "service" "rotation-example"]
  ∧ ZLogger_SetOutput zl (Buffer 1) = ZLogger_SetOutput zl' (Buffer 1).
Proof.
  split_and!; [reflexivity | reflexivity | reflexivity | reflexivity |].
  apply (SetOutput_forgets_the_engine
           (New [WithFormat JSONFormat;
                 WithZerologOptions
                   [λ l : zerolog_Logger,
                      {| zw := zw l; zlevel := zlevel l;
                         zcontext := zcontext l
                                     ++ [StrField "service" "rotation-example"] |}]])
           (New [WithFormat JSONFormat]) (Buffer 1)); reflexivity.
Defined.

(** X11: for every format but the console one, [SetOutput] on a logger built
    by [New] without enrichers gives the logger [New] builds for the new
    destination.  (For the console format the two differ in the time layout.) *)
Theorem SetOutput_is_New_for_the_destination (o w : Writer) (level : Level)
    (format : FormatType) :
  format ≠ ConsoleFormat →
  ZLogger_SetOutput (New [WithOutput o; WithLevel level; WithFormat format]) w
  = New [WithOutput w; WithLevel level; WithFormat format].
Proof.
  intros Hf. unfold ZLogger_SetOutput, New. simpl.
  repeat destruct (decide _); done.
Qed.

Lemma SetOutput_is_New_for_the_destination_witness :
  JSONFormat ≠ ConsoleFormat
  ∧ ZLogger_SetOutput (New [WithOutput Stdout; WithLevel LevelDebug; WithFormat JSONFormat])
      (Buffer 2)
    = New [WithOutput (Buffer 2); WithLevel LevelDebug; WithFormat JSONFormat].
Proof.
  assert (Hf : JSONFormat ≠ ConsoleFormat) by discriminate.
  split; [exact Hf|].
  exact (SetOutput_is_New_for_the_destination Stdout (Buffer 2) LevelDebug JSONFormat Hf).
Defined.

(** ** What stays fixed after construction *)

Lemma AddOtelHooks_stored (zl : ZLogger) (ctx : option Context) :
  zl_level (ZLogger_AddOtelHooks zl ctx) = zl_level zl
  ∧ zl_format (ZLogger_AddOtelHooks zl ctx) = zl_format zl
  ∧ zl_tp (ZLogger_AddOtelHooks zl ctx) = zl_tp zl
  ∧ zw (zl_logger (ZLogger_AddOtelHooks zl ctx)) = zw (zl_logger zl)
  ∧ zlevel (zl_logger (ZLogger_AddOtelHooks zl ctx)) = zlevel (zl_logger zl).
Proof. unfold ZLogger_AddOtelHooks. by destruct (decide _). Qed.

(** X12: the format and the tracer provider of a logger are those it was
    built with: no sequence of [SetLevel], [SetOutput], [SetTraceProvider]
    and [AddOtelHooks] calls changes them ([SetTraceProvider] ignores its
    argument), and a logger that starts consistent stays so. *)
Theorem format_and_provider_are_fixed (zl0 zl : ZLogger) :
  evolves zl0 zl →
  zl_format zl = zl_format zl0
  ∧ zl_tp zl = zl_tp zl0
  ∧ (consistent zl0 → consistent zl).
Proof.
  intros Hev. induction Hev as [|zl level _ IH|zl w _ IH|zl tp _ IH|zl ctx _ IH].
  - done.
  - destruct IH as (Hf & Ht & _). split_and!; [done | done |].
    intros _. apply SetLevel_level.
  - destruct IH as (Hf & Ht & _). split_and!; [done | done |].
    intros _. apply ZLogger_SetOutput_keeps_format_and_level.
  - done.
  - destruct IH as (Hf & Ht & Hc).
    destruct (AddOtelHooks_stored zl ctx) as (Hl' & Hf' & Ht' & _ & Hz').
    split_and!; [congruence | congruence |].
    intros Hc0. unfold consistent in *. rewrite Hz', Hl'. by apply Hc.
Qed.

Lemma format_and_provider_are_fixed_witness :
  let zl0 := New [WithFormat JSONFormat; WithTraceProvider (Some (Provider 1))] in
  let zl := ZLogger_AddOtelHooks
              (ZLogger_SetTraceProvider
                 (ZLogger_SetOutput (ZLogger_SetLevel zl0 LevelError) (Buffer 3))
                 (Some (Provider 2)))
              (Some example_ctx) in
  evolves zl0 zl
  ∧ zl_format zl = JSONFormat
  ∧ zl_tp zl = Provider 1.
Proof.
  assert (Hev : evolves
            (New [WithFormat JSONFormat; WithTraceProvider (Some (Provider 1))])
            (ZLogger_AddOtelHooks
               (ZLogger_SetTraceProvider
                  (ZLogger_SetOutput
                     (ZLogger_SetLevel
                        (New [WithFormat JSONFormat;
                              WithTraceProvider (Some (Provider 1))]) LevelError)
                     (Buffer 3))
                  (Some (Provider 2)))
               (Some example_ctx))).
  { apply evolves_AddOtelHooks, evolves_SetTraceProvider, evolves_SetOutput,
      evolves_SetLevel, evolves_refl. }
  split; [exact Hev|].
  split; apply (format_and_provider_are_fixed _ _ Hev).
Defined.

(** ** What a log call touches *)

Lemma after_event_frame w l lvl fields msg :
  broken (after_event w l lvl fields msg) = broken w
  ∧ rotations (after_event w l lvl fields msg) = rotations w
  ∧ heap (after_event w l lvl fields msg) = heap w.
Proof.
  unfold after_event. by destruct (should l lvl), (broken w (lw_out (zw l))).
Qed.




(** X14: what a context-aware call tells the span does not depend on the
    logger: its level, destination and format play no part, so a call the
    filter drops still adds its event to a valid span (and [CtxErrorf] still
    sets the status). *)
Theorem span_annotation_ignores_the_logger `{Fmt} (s : Severity) (zl : ZLogger)
    (ctx : option Context) (format : string) (v : list any) (w : World) :
  span_calls (final (ZLogger_ctx s zl ctx format v w))
  = span_calls w
    ++ (if SpanContext_IsValid (span_ctx (trace_SpanFromContext ctx))
        then span_annotation s (trace_SpanFromContext ctx) (Sprintf format v)
        else []).
Proof.
  rewrite ctx_run. cbn zeta.
  destruct s; simpl; rewrite ?span_calls_annotate, span_calls_after_event; try done.
  destruct (SpanContext_IsValid (span_ctx (trace_SpanFromContext ctx)));
    by rewrite ?app_nil_r.
Qed.

(** A Debug call on a logger at the default Info level: no record, one event. *)
Example filtered_call_still_annotates :
  written (final (ZLogger_CtxDebugf (H := plain_fmt) (New [WithOutput (Buffer 0)])
                    (Some example_ctx) "probe" [] empty_world)) = []
  ∧ span_calls (final (ZLogger_CtxDebugf (H := plain_fmt) (New [WithOutput (Buffer 0)])
                         (Some example_ctx) "probe" [] empty_world))
    = [(7%nat, AddEvent "log" [("message", "probe"); ("level", "debug")])].
Proof. by vm_compute. Qed.

(** X15: the Fatal, Fatalf and CtxFatalf calls end the process with exit
    code 1 whatever the level of the logger, the destination and the context;
    the calls of the six other severities always return to the caller. *)
Theorem only_Fatal_calls_exit `{Fmt} (s : Severity) (zl : ZLogger)
    (ctx : option Context) (format : string) (v : list any) (w : World) :
  Forall (λ r : result (),
            match s, r with
            | Fatal, Exit code _ => code = 1
            | Fatal, _ => False
            | _, Ret _ _ => True
            | _, _ => False
            end)
         [ZLogger_plain s zl v w; ZLogger_formatted s zl format v w;
          ZLogger_ctx s zl ctx format v w].
Proof.
  rewrite plain_run, formatted_run, ctx_run. cbn zeta.
  destruct s; by repeat constructor.
Qed.

(** ** The extractors and the context *)

Lemma otel_fields_Some (zl : ZLogger) (c : Context) :
  otel_fields zl (Some c)
  = Some (match ctx_values c !! ReqIDKey with
          | Some r => <[LogIDKey := r]> (default ∅ (AddOtelFieldsToContext (Some c)))
          | None => default ∅ (AddOtelFieldsToContext (Some c))
          end).
Proof.
  unfold otel_fields, ZLogger_getOtelFields, AddOtelFieldsToContext, Context_Value. run.
  cbn [default from_option id].
  unfold LogIDKey, ReqIDKey.
  destruct (ctx_values c !! "X-Request-ID") as [r|];
    destruct (SpanContext_IsValid (span_ctx (trace_SpanFromContext (Some c))));
    destruct (ID_IsValid (sc_traceID (span_ctx (trace_SpanFromContext (Some c)))));
    destruct (ID_IsValid (sc_spanID (span_ctx (trace_SpanFromContext (Some c)))));
    destruct (Byte.eqb (sc_traceFlags (span_ctx (trace_SpanFromContext (Some c))))
                Byte.x00);
    cbn [negb default from_option id]; f_equal;
    apply map_eq; intros k;
    repeat (rewrite lookup_insert; destruct (decide _) as [<- | ?]; try done);
    repeat (rewrite lookup_insert_ne by done); done.
Qed.

(** X16: [getOtelFields] reads one key of the context: a value stored under
    any key other than [X-Request-ID] (the key [request_id] of the package's
    own test, for one) changes nothing in what it returns, and a value stored
    under [X-Request-ID] is what it returns under [request_id]. *)
Theorem getOtelFields_reads_one_key (zl : ZLogger) (c : Context)
    (key : string) (val : any) (w : World) :
  key ≠ ReqIDKey →
  ZLogger_getOtelFields zl (Some (context_WithValue c key val)) w
  = ZLogger_getOtelFields zl (Some c) w
  ∧ default ∅ (otel_fields zl (Some (context_WithValue c ReqIDKey val))) !! LogIDKey
    = Some val.
Proof.
  intros Hkey. split.
  - rewrite !getOtelFields_run. f_equal. rewrite !otel_fields_Some.
    unfold context_WithValue at 1. cbn [ctx_values].
    by rewrite lookup_insert_ne.
  - rewrite otel_fields_Some. unfold context_WithValue at 1. cbn [ctx_values].
    rewrite lookup_insert_eq. cbn [default from_option id]. apply lookup_insert_eq.
Qed.

Lemma getOtelFields_reads_one_key_witness :
  "request_id" ≠ ReqIDKey
  ∧ ZLogger_getOtelFields (New [])
      (Some (context_WithValue context_Background "request_id" (VString "12345")))
      empty_world
    = ZLogger_getOtelFields (New []) (Some context_Background) empty_world.
Proof.
  assert (Hkey : "request_id" ≠ ReqIDKey) by discriminate.
  split; [exact Hkey|].
  apply (getOtelFields_reads_one_key (New []) context_Background "request_id"
           (VString "12345") empty_world Hkey).
Defined.

(** X17: [getContextFields] and [getOtelFields] differ in the context key
    they read the request id from and in nothing else: on a context, nil or
    not, that holds the same under [request_id] and under [X-Request-ID]
    (nothing under both, for one) they return the same mapping. *)
Theorem getContextFields_agrees_with_getOtelFields (zl : ZLogger)
    (ctx : option Context) (w : World) :
  (ctx ≫= λ c, ctx_values c !! "request_id") = (ctx ≫= λ c, ctx_values c !! ReqIDKey) →
  getContextFields ctx w = ZLogger_getOtelFields zl ctx w.
Proof.
  destruct ctx as [c|]; [|done]. simpl. intros Heq.
  unfold getContextFields, ZLogger_getOtelFields, Context_Value, LogIDKey. run.
  by rewrite Heq.
Qed.

Lemma getContextFields_agrees_with_getOtelFields_witness :
  let ctx := Some {| ctx_values := ∅; ctx_span := Some example_span |} in
  (ctx ≫= λ c, ctx_values c !! "request_id") = (ctx ≫= λ c, ctx_values c !! ReqIDKey)
  ∧ getContextFields ctx empty_world = ZLogger_getOtelFields (New []) ctx empty_world.
Proof.
  assert (Heq : (Some {| ctx_values := ∅; ctx_span := Some example_span |}
                   ≫= λ c, ctx_values c !! "request_id")
                = (Some {| ctx_values := ∅; ctx_span := Some example_span |}
                     ≫= λ c, ctx_values c !! ReqIDKey)) by reflexivity.
  split; [exact Heq|].
  exact (getContextFields_agrees_with_getOtelFields (New []) _ empty_world Heq).
Defined.

(** The context of the package's test [TestZLogger] holds its request id
    under [request_id]: [getContextFields] finds it, [getOtelFields] (the one
    the context-aware calls use) does not. *)
Example request_id_under_the_other_key :
  let ctx := Some (context_WithValue context_Background "request_id" (VString "12345")) in
  getContextFields ctx empty_world
  = Ret (Some {[ "request_id" := VString "12345" ]}) empty_world
  ∧ ZLogger_getOtelFields (New []) ctx empty_world = Ret (Some ∅) empty_world.
Proof. split; reflexivity. Qed.

(** X18: [AddOtelFieldsToContext] returns the nil map exactly when the span
    of the context is not valid (a nil context included) and never a request
    id; on a context that is not nil [getOtelFields] returns the same trace
    fields, with the request id of the context added when there is one. *)
Theorem getOtelFields_is_AddOtelFields_plus_request_id (zl : ZLogger)
    (ctx : option Context) (c : Context) (w : World) :
  AddOtelFieldsToContext None = None
  ∧ (AddOtelFieldsToContext ctx = None
     ↔ SpanContext_IsValid (span_ctx (trace_SpanFromContext ctx)) = false)
  ∧ default ∅ (AddOtelFieldsToContext ctx) !! LogIDKey = None
  ∧ ZLogger_getOtelFields zl (Some c) w
    = Ret (Some (match ctx_values c !! ReqIDKey with
                 | Some r => <[LogIDKey := r]> (default ∅ (AddOtelFieldsToContext (Some c)))
                 | None => default ∅ (AddOtelFieldsToContext (Some c))
                 end)) w.
Proof.
  split_and!.
  - done.
  - unfold AddOtelFieldsToContext.
    destruct (SpanContext_IsValid (span_ctx (trace_SpanFromContext ctx))); simpl;
      split; done.
  - unfold AddOtelFieldsToContext, LogIDKey.
    destruct (SpanContext_IsValid (span_ctx (trace_SpanFromContext ctx))); [|done].
    cbn [negb].
    destruct (ID_IsValid (sc_traceID (span_ctx (trace_SpanFromContext ctx))));
      destruct (ID_IsValid (sc_spanID (span_ctx (trace_SpanFromContext ctx))));
      destruct (Byte.eqb (sc_traceFlags (span_ctx (trace_SpanFromContext ctx)))
                  Byte.x00);
      cbn [negb default from_option id]; lookup_fields.
  - by rewrite getOtelFields_run, otel_fields_Some.
Qed.


(** ** The tracing helpers *)

Lemma attached_default `{Fmt} (fields : option (gmap string any)) :
  attached (Some (default ∅ fields)) = attached fields.
Proof. destruct fields; [done|]. unfold attached. simpl. by rewrite map_to_list_empty. Qed.

Section TraceHelpers.
Context `{Fmt}.

Lemma CtxInfofWithTrace_run zl ctx format v w :
  ZLogger_CtxInfofWithTrace zl ctx format v w
  = Ret () (annotate Info ctx (Sprintf format v)
              (after_event w (zl_logger zl) InfoLevel
                 (attached (AddOtelFieldsToContext ctx)) (Sprintf format v))).
Proof.
  unfold ZLogger_CtxInfofWithTrace, Logger_Info, annotate.
  pose proof (event_run (zl_logger zl) InfoLevel None (AddOtelFieldsToContext ctx)
                (Sprintf format v) w) as He.
  run.
  destruct (newEvent (zl_logger zl) InfoLevel None w) as [e w1|code w1|w1];
    simpl in *; try congruence.
  rewrite Event_Msgf_Msg, He.
  by destruct (SpanContext_IsValid (span_ctx (trace_SpanFromContext ctx))).
Qed.

Lemma CtxErrorfWithTrace_run zl ctx format v w :
  ZLogger_CtxErrorfWithTrace zl ctx format v w
  = Ret () (annotate Error ctx (Sprintf format v)
              (after_event w (zl_logger zl) ErrorLevel
                 (attached (AddOtelFieldsToContext ctx)) (Sprintf format v))).
Proof.
  unfold ZLogger_CtxErrorfWithTrace, Logger_Error, annotate.
  pose proof (event_run (zl_logger zl) ErrorLevel None (AddOtelFieldsToContext ctx)
                (Sprintf format v) w) as He.
  run.
  destruct (newEvent (zl_logger zl) ErrorLevel None w) as [e w1|code w1|w1];
    simpl in *; try congruence.
  rewrite He.
  destruct (SpanContext_IsValid (span_ctx (trace_SpanFromContext ctx))); [|done].
  unfold Span_AddEvent, Span_SetStatus. by rewrite set_span_calls_app.
Qed.

Lemma attached_without_request_id zl ctx :
  (ctx ≫= λ c, ctx_values c !! ReqIDKey) = None →
  attached (otel_fields zl ctx) = attached (AddOtelFieldsToContext ctx).
Proof.
  destruct ctx as [c|]; [|done]. simpl. intros Hreq.
  by rewrite otel_fields_Some, Hreq, attached_default.
Qed.

End TraceHelpers.

(** X19: on a context without a value under [X-Request-ID] (a nil context
    included) [CtxInfofWithTrace] does exactly what [CtxInfof] does, and
    [CtxErrorfWithTrace] what [CtxErrorf] does: same record, same calls on the
    span. *)
Theorem WithTrace_calls_agree `{Fmt} (zl : ZLogger) (ctx : option Context)
    (format : string) (v : list any) (w : World) :
  (ctx ≫= λ c, ctx_values c !! ReqIDKey) = None →
  ZLogger_CtxInfofWithTrace zl ctx format v w = ZLogger_CtxInfof zl ctx format v w
  ∧ ZLogger_CtxErrorfWithTrace zl ctx format v w = ZLogger_CtxErrorf zl ctx format v w.
Proof.
  intros Hreq.
  pose proof (ctx_run Info zl ctx format v w) as Hi.
  pose proof (ctx_run Error zl ctx format v w) as He.
  cbn [ZLogger_ctx] in Hi, He. cbn zeta in Hi, He. cbn [event_level] in Hi, He.
  rewrite Hi, He, CtxInfofWithTrace_run, CtxErrorfWithTrace_run.
  by rewrite (attached_without_request_id zl ctx Hreq).
Qed.

Lemma WithTrace_calls_agree_witness :
  let ctx := Some {| ctx_values := ∅; ctx_span := Some example_span |} in
  (ctx ≫= λ c, ctx_values c !! ReqIDKey) = None
  ∧ ZLogger_CtxInfofWithTrace (H := plain_fmt) (New []) ctx "m" [] empty_world
    = ZLogger_CtxInfof (H := plain_fmt) (New []) ctx "m" [] empty_world.
Proof.
  assert (Hreq : (Some {| ctx_values := ∅; ctx_span := Some example_span |}
                    ≫= λ c, ctx_values c !! ReqIDKey) = None) by reflexivity.
  split; [exact Hreq|].
  apply (@WithTrace_calls_agree plain_fmt (New []) _ "m" [] empty_world Hreq).
Defined.

(** X20: [OtelHook.Run] looks for the span in [context.Background()], which
    has none: whatever the event, the level and the message, it returns
    without a call on any span and without any other effect. *)
Theorem OtelHook_Run_does_nothing (tp : option TracerProvider) (e : Event)
    (level : zLevel) (msg : string) (w : World) :
  OtelHook_Run (NewOtelHook tp) e level msg w = Ret () w
  ∧ traceProvider (NewOtelHook tp) = default NoopTracerProvider tp
  ∧ tracer (NewOtelHook tp)
    = TracerProvider_Tracer (default NoopTracerProvider tp) "zlog".
Proof. split_and!; [done | by destruct tp | by destruct tp]. Qed.

(** X21: [AddOtelHooks] on a context whose span is not valid (a nil context
    included) returns the logger as it is; on a valid span it appends the
    trace fields to the context fields of the engine, sorted by key, and
    leaves the destination, the filter, the stored level, the format and the
    provider alone.  The fields are appended at each call, so two calls leave
    them twice. *)
Theorem AddOtelHooks_appends_trace_fields (zl : ZLogger) (ctx : option Context) :
  let sc := span_ctx (trace_SpanFromContext ctx) in
  let added :=
    if SpanContext_IsValid sc then
      StrField "span_id" (ID_String (sc_spanID sc))
      :: (if Byte.eqb (sc_traceFlags sc) Byte.x00 then []
          else [StrField "trace_flags" (Sprintf_02x (sc_traceFlags sc))])
      ++ [StrField "trace_id" (ID_String (sc_traceID sc))]
    else [] in
  zcontext (zl_logger (ZLogger_AddOtelHooks zl ctx)) = zcontext (zl_logger zl) ++ added
  ∧ zcontext (zl_logger (ZLogger_AddOtelHooks (ZLogger_AddOtelHooks zl ctx) ctx))
    = zcontext (zl_logger zl) ++ added ++ added
  ∧ (if SpanContext_IsValid sc then True else ZLogger_AddOtelHooks zl ctx = zl)
  ∧ zw (zl_logger (ZLogger_AddOtelHooks zl ctx)) = zw (zl_logger zl)
  ∧ zlevel (zl_logger (ZLogger_AddOtelHooks zl ctx)) = zlevel (zl_logger zl)
  ∧ zl_level (ZLogger_AddOtelHooks zl ctx) = zl_level zl.
Proof.
  cbn zeta.
  assert (Hone : ∀ zl0 : ZLogger,
    zcontext (zl_logger (ZLogger_AddOtelHooks zl0 ctx))
    = zcontext (zl_logger zl0)
      ++ (if SpanContext_IsValid (span_ctx (trace_SpanFromContext ctx)) then
            StrField "span_id" (ID_String (sc_spanID (span_ctx (trace_SpanFromContext ctx))))
            :: (if Byte.eqb (sc_traceFlags (span_ctx (trace_SpanFromContext ctx))) Byte.x00
                then []
                else [StrField "trace_flags"
                        (Sprintf_02x (sc_traceFlags (span_ctx (trace_SpanFromContext ctx))))])
            ++ [StrField "trace_id"
                  (ID_String (sc_traceID (span_ctx (trace_SpanFromContext ctx))))]
          else [])).
  { intros zl0. unfold ZLogger_AddOtelHooks, AddOtelFieldsToContext, SpanContext_IsValid.
    destruct (ID_IsValid (sc_traceID (span_ctx (trace_SpanFromContext ctx)))) eqn:Ht;
      destruct (ID_IsValid (sc_spanID (span_ctx (trace_SpanFromContext ctx)))) eqn:Hs;
      cbn [andb negb len from_option];
      try (by rewrite app_nil_r).
    destruct (Byte.eqb (sc_traceFlags (span_ctx (trace_SpanFromContext ctx))) Byte.x00);
      cbn [negb]; reflexivity. }
  split_and!.
  - apply Hone.
  - rewrite Hone, Hone. by rewrite <- app_assoc.
  - unfold ZLogger_AddOtelHooks, AddOtelFieldsToContext.
    by destruct (SpanContext_IsValid (span_ctx (trace_SpanFromContext ctx))).
  - apply AddOtelHooks_stored.
  - apply AddOtelHooks_stored.
  - apply AddOtelHooks_stored.
Qed.

(** X22: a context-aware call on a context that has no request id and no
    valid span (the nil context, [context.Background()]) does what the
    formatted call of the same severity does. *)
Theorem ctx_call_without_fields_is_formatted_call `{Fmt} (s : Severity) (zl : ZLogger)
    (ctx : option Context) (format : string) (v : list any) (w : World) :
  (ctx ≫= λ c, ctx_values c !! ReqIDKey) = None →
  SpanContext_IsValid (span_ctx (trace_SpanFromContext ctx)) = false →
  ZLogger_ctx s zl ctx format v w = ZLogger_formatted s zl format v w.
Proof.
  intros Hreq Hinv. rewrite ctx_run, formatted_run. cbn zeta.
  rewrite (attached_without_request_id zl ctx Hreq).
  assert (Hnone : AddOtelFieldsToContext ctx = None).
  { unfold AddOtelFieldsToContext. by rewrite Hinv. }
  rewrite Hnone. unfold annotate. rewrite Hinv. by destruct s.
Qed.

Lemma ctx_call_without_fields_is_formatted_call_witness :
  let ctx := Some context_Background in
  (ctx ≫= λ c, ctx_values c !! ReqIDKey) = None
  ∧ SpanContext_IsValid (span_ctx (trace_SpanFromContext ctx)) = false
  ∧ ZLogger_ctx (H := plain_fmt) Info (New []) ctx "Test message with context" []
      empty_world
    = ZLogger_formatted (H := plain_fmt) Info (New []) "Test message with context" []
        empty_world.
Proof.
  assert (Hreq : (Some context_Background ≫= λ c, ctx_values c !! ReqIDKey) = None)
    by reflexivity.
  assert (Hinv : SpanContext_IsValid
                   (span_ctx (trace_SpanFromContext (Some context_Background))) = false)
    by reflexivity.
  split_and!; [exact Hreq | exact Hinv |].
  exact (@ctx_call_without_fields_is_formatted_call plain_fmt Info (New [])
           (Some context_Background) "Test message with context" [] empty_world
           Hreq Hinv).
Defined.

(** ** The rotation configuration and the rotating logger *)

Lemma last_omap_snoc {A B} (f : A → option B) (l : list A) (x : A) :
  last (omap f (l ++ [x])) = match f x with Some y => Some y | None => last (omap f l) end.
Proof.
  rewrite omap_app. simpl. destruct (f x) as [y|].
  - apply last_snoc.
  - by rewrite app_nil_r.
Qed.

(** X23: in the configuration [GetDefaultRotateConfig] returns for a list of
    the package's five options, the file name is the one given, and each
    other field is the argument of the last option for that field, or its
    default (20 MB, 5 backups, 10 days, compression on, local time on) when
    the list has no option for it. *)
Theorem GetDefaultRotateConfig_fields (filename : string) (os : list RotateSetting) :
  let c := GetDefaultRotateConfig filename (rotate_option <$> os) in
  Filename c = filename
  ∧ MaxSize c = default 20 (last_MaxSize os)
  ∧ MaxBackups c = default 5 (last_MaxBackups os)
  ∧ MaxAge c = default 10 (last_MaxAge os)
  ∧ Compress c = default true (last_Compress os)
  ∧ LocalTime c = default true (last_LocalTime os).
Proof.
  cbn zeta. unfold GetDefaultRotateConfig, last_MaxSize, last_MaxBackups, last_MaxAge,
    last_Compress, last_LocalTime.
  induction os as [|o os IH] using rev_ind; [done|].
  rewrite fmap_app, foldl_app, !last_omap_snoc. simpl.
  destruct IH as (Hf & Hs & Hb & Ha & Hc & Hl).
  destruct o; simpl; by split_and!.
Qed.

(** The configuration of the package's example [InitLog]. *)
Example GetDefaultRotateConfig_example :
  GetDefaultRotateConfig "log.log" [WithMaxSize 10; WithMaxAge 7; WithMaxBackups 10]
  = {| Filename := "log.log"; MaxSize := 10; MaxBackups := 10; MaxAge := 7;
       Compress := true; LocalTime := true |}.
Proof. reflexivity. Qed.

(** X24: the writer and the configuration of a rotating logger never
    change: after any sequence of [SetLevel] and [SetOutput] calls [Rotate]
    rotates the file the logger was built for and [GetRotatingWriter] returns
    the same writer, although after [SetOutput] the records go to the new
    destination. *)
Theorem rotation_target_is_fixed (rl0 rl : RotatingLogger) (out : Writer) (w : World) :
  rl_evolves rl0 rl →
  rl_writer rl = rl_writer rl0
  ∧ rl_config rl = rl_config rl0
  ∧ RotatingLogger_Rotate rl w = RotatingLogger_Rotate rl0 w
  ∧ RotatingLogger_GetRotatingWriter rl = RotatingLogger_GetRotatingWriter rl0
  ∧ lw_out (zw (zl_logger (rl_baseLogger (RotatingLogger_SetOutput rl out)))) = out
  ∧ RotatingLogger_Rotate (RotatingLogger_SetOutput rl out) w
    = RotatingLogger_Rotate rl0 w.
Proof.
  intros Hev.
  assert (Hfix : rl_writer rl = rl_writer rl0 ∧ rl_config rl = rl_config rl0).
  { induction Hev as [|rl level _ IH|rl x _ IH]; [done|exact IH|exact IH]. }
  destruct Hfix as [Hw Hc].
  unfold RotatingLogger_Rotate, RotatingLogger_GetRotatingWriter.
  cbn [rl_writer RotatingLogger_SetOutput]. rewrite Hw.
  by split_and!.
Qed.

Lemma rotation_target_is_fixed_witness :
  let config := GetDefaultRotateConfig "app.log" [] in
  let rl0 := NewRotatingLogger config in
  let rl := RotatingLogger_SetLevel (RotatingLogger_SetOutput rl0 (Buffer 1)) LevelDebug in
  rl_evolves rl0 rl
  ∧ RotatingLogger_GetRotatingWriter rl = Some (lumberjackLogger config)
  ∧ lw_out (zw (zl_logger (rl_baseLogger rl))) = Buffer 1
  ∧ RotatingLogger_Rotate rl empty_world = RotatingLogger_Rotate rl0 empty_world.
Proof.
  assert (Hev : rl_evolves
            (NewRotatingLogger (GetDefaultRotateConfig "app.log" []))
            (RotatingLogger_SetLevel
               (RotatingLogger_SetOutput
                  (NewRotatingLogger (GetDefaultRotateConfig "app.log" [])) (Buffer 1))
               LevelDebug)).
  { apply rl_evolves_SetLevel, rl_evolves_SetOutput, rl_evolves_refl. }
  split_and!; [exact Hev | reflexivity | reflexivity |].
  apply (rotation_target_is_fixed _ _ Stdout empty_world Hev).
Defined.

(** X25: a rotating logger as its constructors build it: the rotating
    writer carries the six settings of the configuration, the base logger
    writes to that writer at the Info level, in the console shape unless the
    JSON format was asked for, and stores the format it was given;
    [NewRotatingLogger] is the constructor with the console format. *)
Theorem rotating_logger_as_built (config : RotateConfig) (format : FormatType) :
  let rl := NewRotatingLoggerWithFormat config format in
  RotatingLogger_GetRotatingWriter rl
  = Some {| lumberjack.Filename := Filename config;
            lumberjack.MaxSize := MaxSize config;
            lumberjack.MaxBackups := MaxBackups config;
            lumberjack.MaxAge := MaxAge config;
            lumberjack.Compress := Compress config;
            lumberjack.LocalTime := LocalTime config |}
  ∧ lw_out (zw (zl_logger (rl_baseLogger rl))) = rl_writer rl
  ∧ lw_console (zw (zl_logger (rl_baseLogger rl)))
    = negb (bool_decide (format = JSONFormat))
  ∧ zl_format (rl_baseLogger rl) = format
  ∧ zl_level (rl_baseLogger rl) = LevelInfo
  ∧ zlevel (zl_logger (rl_baseLogger rl)) = InfoLevel
  ∧ rl_config rl = config
  ∧ NewRotatingLogger config = NewRotatingLoggerWithFormat config ConsoleFormat.
Proof.
  cbn zeta. unfold NewRotatingLoggerWithFormat, New. simpl.
  destruct (decide (format = JSONFormat)) as [Hj|Hj];
    [|destruct (decide (format = ConsoleFormat))]; simpl;
    rewrite ?(bool_decide_eq_true_2 _ Hj), ?(bool_decide_eq_false_2 _ Hj);
    by split_and!.
Qed.

(** ** The adapter and the pointer it holds *)

(** X26: an adapter around a nil logger panics on every call of the hlog
    contract, before any effect. *)
Theorem adapter_around_nil_panics `{Fmt} (h : HlogAdapter) (c : Call) (w : World) :
  heap w !! h_logger h = None →
  HlogAdapter_call h c w = Panic w.
Proof.
  intros Hnil.
  destruct c as [s v|s format v|s ctx format v|level|out]; try destruct s;
    simpl;
    unfold HlogAdapter_Trace, HlogAdapter_Debug, HlogAdapter_Info, HlogAdapter_Notice,
      HlogAdapter_Warn, HlogAdapter_Error, HlogAdapter_Fatal,
      HlogAdapter_Tracef, HlogAdapter_Debugf, HlogAdapter_Infof, HlogAdapter_Noticef,
      HlogAdapter_Warnf, HlogAdapter_Errorf, HlogAdapter_Fatalf,
      HlogAdapter_CtxTracef, HlogAdapter_CtxDebugf, HlogAdapter_CtxInfof,
      HlogAdapter_CtxNoticef, HlogAdapter_CtxWarnf, HlogAdapter_CtxErrorf,
      HlogAdapter_CtxFatalf, HlogAdapter_SetLevel, HlogAdapter_SetOutput,
      method, method_update, deref;
    run; by rewrite Hnil.
Qed.

Lemma adapter_around_nil_panics_witness :
  heap empty_world !! h_logger (NewHlogAdapter 5%nat) = None
  ∧ HlogAdapter_call (H := plain_fmt) (NewHlogAdapter 5%nat) (CallSetLevel LevelDebug)
      empty_world
    = Panic empty_world.
Proof.
  assert (Hnil : heap empty_world !! h_logger (NewHlogAdapter 5%nat) = None)
    by reflexivity.
  split; [exact Hnil|].
  exact (@adapter_around_nil_panics plain_fmt (NewHlogAdapter 5%nat)
           (CallSetLevel LevelDebug) empty_world Hnil).
Defined.

(** X27: the adapter works on the caller's logger, not on a copy: after
    [SetLevel] or [SetOutput] through the adapter, every method called through
    the pointer (by the caller or by another adapter around the same logger)
    runs on the updated logger; the other loggers of the heap are untouched,
    and a log call through the adapter leaves the loggers as they are. *)
Theorem adapter_updates_the_shared_logger `{Fmt} {A} (p : nat) (zl : ZLogger)
    (level : Level) (out : Writer) (s : Severity) (v : list any)
    (body : ZLogger → Go A) (w : World) :
  heap w !! p = Some zl →
  (HlogAdapter_SetLevel (NewHlogAdapter p) level;; method p body) w
  = body (ZLogger_SetLevel zl level)
         (set_heap (λ h, <[p := ZLogger_SetLevel zl level]> h) w)
  ∧ (HlogAdapter_SetOutput (NewHlogAdapter p) out;; method p body) w
    = body (ZLogger_SetOutput zl out)
           (set_heap (λ h, <[p := ZLogger_SetOutput zl out]> h) w)
  ∧ HlogAdapter_call (NewHlogAdapter p) (CallPlain s v) w = ZLogger_plain s zl v w
  ∧ heap (final (HlogAdapter_call (NewHlogAdapter p) (CallPlain s v) w)) = heap w.
Proof.
  intros Hp. split_and!.
  - unfold HlogAdapter_SetLevel, method_update, method, deref, assign. run.
    cbn [h_logger NewHlogAdapter]. rewrite Hp. cbn [heap set_heap].
    by rewrite lookup_insert_eq.
  - unfold HlogAdapter_SetOutput, method_update, method, deref, assign. run.
    cbn [h_logger NewHlogAdapter]. rewrite Hp. cbn [heap set_heap].
    by rewrite lookup_insert_eq.
  - destruct s; simpl;
      unfold HlogAdapter_Trace, HlogAdapter_Debug, HlogAdapter_Info, HlogAdapter_Notice,
        HlogAdapter_Warn, HlogAdapter_Error, HlogAdapter_Fatal, method, deref;
      run; cbn [h_logger NewHlogAdapter]; by rewrite Hp.
  - assert (Hcall : HlogAdapter_call (NewHlogAdapter p) (CallPlain s v) w
                    = ZLogger_plain s zl v w).
    { destruct s; simpl;
        unfold HlogAdapter_Trace, HlogAdapter_Debug, HlogAdapter_Info,
          HlogAdapter_Notice, HlogAdapter_Warn, HlogAdapter_Error, HlogAdapter_Fatal,
          method, deref;
        run; cbn [h_logger NewHlogAdapter]; by rewrite Hp. }
    rewrite Hcall, plain_run, final_outcome.
    apply after_event_frame.
Qed.

Lemma adapter_updates_the_shared_logger_witness :
  let w := set_heap (λ h, <[0%nat := New []]> h) empty_world in
  heap w !! 0%nat = Some (New [])
  ∧ (HlogAdapter_SetLevel (NewHlogAdapter 0%nat) LevelError;;
     method 0%nat (λ zl, mret (zl_level zl))) w
    = Ret LevelError
          (set_heap (λ h, <[0%nat := ZLogger_SetLevel (New []) LevelError]> h) w).
Proof.
  assert (Hp : heap (set_heap (λ h, <[0%nat := New []]> h) empty_world) !! 0%nat
               = Some (New [])) by reflexivity.
  split; [exact Hp|].
  apply (@adapter_updates_the_shared_logger plain_fmt Level 0%nat (New []) LevelError
           Stdout Info [] (λ zl, mret (zl_level zl)) _ Hp).
Defined.
